(** * Market-making controller base: configuration, price resolution and
      the per-cycle reconciliation of executors.

    A shallow embedding of
    [hummingbot/smart_components/controllers/market_making_controller_base.py]
    (classes [MarketMakingControllerConfigBase] and
    [MarketMakingControllerBase]) together with the properties stated about
    it.

    Conventions of the embedding.
    - Python [float] values (spreads, amount fractions, prices, timestamps)
      are rationals in canonical form ([Qc]) and the operations on them
      do not round. The statements below are therefore kept to those
      that read the same when every operation rounds: which exception is
      raised, which list has which length, and which expression of
      sums, products and quotients a result is. Where the rounding of
      binary64 decides a property, the comprehension of
      [normalize_amounts] is also given on binary64 numbers
      ([normalize_ints_binary64], [normalize_floats_binary64]).
    - Python [int] values are [Z].
    - A Python call that may raise is a value of [result]; a method that
      assigns attributes of [self] before it may raise is a function from
      the object to the object after the call paired with a [result].
    - The built-in [float(str)] is a parameter of the development (class
      [FloatParser]); [int(str)], [str(int)], [str.split], [str.strip],
      [str.upper], [str.lower] and [str.startswith] are written out for
      ASCII text. *)

From Stdlib Require Import List String Ascii ZArith QArith Qcanon Bool Lia Lqa.
From Stdlib Require Import DecimalString DecimalZ Permutation Sorted.
From Stdlib Require Import Floats Uint63.
Import ListNotations.

Local Open Scope string_scope.
Local Open Scope Z_scope.

(** ** Exceptions and fallible computations *)

(** The Python exception classes that the module, or the library code it
    runs under, can raise. *)
Inductive PyExn : Type :=
| ValueError
| KeyError
| IndexError
| AttributeError
| ZeroDivisionError
| NotImplementedError
| ValidationError.

Inductive result (A : Type) : Type :=
| Ok (a : A)
| Raise (e : PyExn).

Arguments Ok {A} a.
Arguments Raise {A} e.

Definition bind {A B} (m : result A) (k : A -> result B) : result B :=
  match m with
  | Ok a => k a
  | Raise e => Raise e
  end.

Notation "x <- m ;; k" := (bind m (fun x => k))
  (at level 61, m at next level, right associativity).
Notation "' p <- m ;; k" := (bind m (fun p => k))
  (at level 61, p pattern, m at next level, right associativity).

(** [[f(x) for x in l]] where [f] may raise: the first exception, in list
    order, ends the comprehension. *)
Fixpoint mapM {A B} (f : A -> result B) (l : list A) : result (list B) :=
  match l with
  | [] => Ok []
  | x :: l' => y <- f x ;; ys <- mapM f l' ;; Ok (y :: ys)
  end.

(** ** Strings *)

Definition is_space (c : ascii) : bool :=
  let n := N_of_ascii c in
  (((9 <=? n) && (n <=? 13)) || ((28 <=? n) && (n <=? 32)))%N.

Definition is_digit (c : ascii) : bool :=
  let n := N_of_ascii c in ((48 <=? n) && (n <=? 57))%N.

Definition lower_char (c : ascii) : ascii :=
  let n := N_of_ascii c in
  if ((65 <=? n) && (n <=? 90))%N then ascii_of_N (n + 32) else c.

Definition upper_char (c : ascii) : ascii :=
  let n := N_of_ascii c in
  if ((97 <=? n) && (n <=? 122))%N then ascii_of_N (n - 32) else c.

Fixpoint string_map (f : ascii -> ascii) (s : string) : string :=
  match s with
  | EmptyString => EmptyString
  | String c s' => String (f c) (string_map f s')
  end.

Fixpoint string_forallb (p : ascii -> bool) (s : string) : bool :=
  match s with
  | EmptyString => true
  | String c s' => p c && string_forallb p s'
  end.

(** [s.lower()] and [s.upper()]. *)
Definition py_lower : string -> string := string_map lower_char.
Definition py_upper : string -> string := string_map upper_char.

(** [s.startswith(p)]. *)
Definition py_startswith (s p : string) : bool := String.prefix p s.

(** [s.split(sep)] for a one-character separator: never empty, one more
    piece than there are separators. *)
Fixpoint py_split (sep : ascii) (s : string) : list string :=
  match s with
  | EmptyString => [EmptyString]
  | String c s' =>
      if Ascii.eqb c sep then EmptyString :: py_split sep s'
      else match py_split sep s' with
           | h :: t => String c h :: t
           | [] => [String c EmptyString]
           end
  end.

Fixpoint py_lstrip (s : string) : string :=
  match s with
  | EmptyString => EmptyString
  | String c s' => if is_space c then py_lstrip s' else s
  end.

Fixpoint py_rstrip (s : string) : string :=
  match s with
  | EmptyString => EmptyString
  | String c s' =>
      match py_rstrip s' with
      | EmptyString => if is_space c then EmptyString else String c EmptyString
      | r => String c r
      end
  end.

(** [s.strip()]. *)
Definition py_strip (s : string) : string := py_rstrip (py_lstrip s).

(** ** Integers and text *)

(** [str(n)] for an [int]. *)
Definition py_str (n : Z) : string := NilEmpty.string_of_int (Z.to_int n).

(** The digits of a decimal literal: underscores are dropped when each
    stands between two digits, anything else is refused, and so is a
    literal without a digit. [prev] tells whether the previous character
    was a digit. *)
Fixpoint int_digits (prev : bool) (s : string) : option string :=
  match s with
  | EmptyString => if prev then Some EmptyString else None
  | String c s' =>
      if Ascii.eqb c "_" then
        if prev then int_digits false s' else None
      else if is_digit c then option_map (String c) (int_digits true s')
      else None
  end.

Definition parse_unsigned (s : string) : result Z :=
  match int_digits false s with
  | Some ds =>
      match NilEmpty.uint_of_string ds with
      | Some d => Ok (Z.of_uint d)
      | None => Raise ValueError
      end
  | None => Raise ValueError
  end.

(** [int(s)] on a string, base ten: surrounding whitespace, one optional
    sign, digits. *)
Definition py_int (s : string) : result Z :=
  match py_strip s with
  | String "-" body => n <- parse_unsigned body ;; Ok (- n)
  | String "+" body => parse_unsigned body
  | body => parse_unsigned body
  end.

(** [l[i]] on a list: a negative index counts from the end. *)
Definition py_getitem {A} (l : list A) (i : Z) : result A :=
  let n := Z.of_nat (List.length l) in
  let j := if i <? 0 then i + n else i in
  if (j <? 0) || (n <=? j) then Raise IndexError
  else match nth_error l (Z.to_nat j) with
       | Some x => Ok x
       | None => Raise IndexError
       end.

(** [l[k:]] for a non-negative constant [k]. *)
Definition py_slice_from {A} (k : nat) (l : list A) : list A := skipn k l.

(** ** Numbers *)

Local Open Scope Qc_scope.

Definition Z2Qc (n : Z) : Qc := Q2Qc (inject_Z n).

(** [sum(l)]: starts from [0] and adds from the left. *)
Definition py_sum (l : list Qc) : Qc := fold_left Qcplus l 0.

(** [a / b]. *)
Definition py_truediv (a b : Qc) : result Qc :=
  if Qc_eq_dec b 0 then Raise ZeroDivisionError else Ok (a / b).

(** The built-in [float] applied to a string. *)
Class FloatParser := py_float : string -> result Qc.

(** ** Enumerations *)

(** Modelled from the spec: [TradeType] of
    [hummingbot.core.data_type.common], an enumeration whose members are
    looked up by the names [BUY] and [SELL]; its members are not strings. *)
Inductive TradeType : Type := BUY | SELL.

Definition TradeType_name (t : TradeType) : string :=
  match t with BUY => "BUY" | SELL => "SELL" end.

Definition TradeType_eqb (a b : TradeType) : bool :=
  match a, b with
  | BUY, BUY | SELL, SELL => true
  | _, _ => false
  end.

(** [TradeType[name]]. *)
Definition TradeType_getitem (name : string) : result TradeType :=
  if String.eqb name "BUY" then Ok BUY
  else if String.eqb name "SELL" then Ok SELL
  else Raise KeyError.

(** The two kinds of object that the module compares with [==] against a
    member of [TradeType]. A string and an enumeration member are never
    equal. *)
Inductive PyObj : Type :=
| PyStr (s : string)
| PyTradeType (t : TradeType).

Definition py_eq (a b : PyObj) : bool :=
  match a, b with
  | PyStr s, PyStr t => String.eqb s t
  | PyTradeType s, PyTradeType t => TradeType_eqb s t
  | _, _ => false
  end.

(** ** Level identifiers *)

Definition get_level_id_from_side (trade_type : TradeType) (level : Z) : string :=
  py_lower (TradeType_name trade_type) ++ "_" ++ py_str level.

Definition get_trade_type_from_level_id (level_id : string) : TradeType :=
  if py_startswith level_id "buy" then BUY else SELL.

Definition get_level_from_level_id (level_id : string) : result Z :=
  piece <- py_getitem (py_split "_" level_id) 1%Z ;; py_int piece.

(** ** Methods that assign attributes *)

(** A method of an object of class [S]: the object after the call and what
    the call returned or raised. Assignments made before an exception stay
    in the object. *)
Definition Method (S A : Type) : Type := S -> S * result A.

Definition mret {S A} (a : A) : Method S A := fun s => (s, Ok a).

Definition mbind {S A B} (m : Method S A) (k : A -> Method S B) : Method S B :=
  fun s =>
    match m s with
    | (s', Ok a) => k a s'
    | (s', Raise e) => (s', Raise e)
    end.

Definition lift {S A} (r : result A) : Method S A := fun s => (s, r).

Definition self_ {S} : Method S S := fun s => (s, Ok s).

Notation "x <~ m ;; k" := (mbind m (fun x => k))
  (at level 61, m at next level, right associativity).
Notation "m ;;; k" := (mbind m (fun _ => k))
  (at level 61, right associativity).

(** ** The configuration *)

(** Modelled from the spec: [PositionMode] of
    [hummingbot.core.data_type.common], the two modes the prompt of the
    field names. *)
Inductive PositionMode : Type := HEDGE | ONEWAY.

(** A validated [MarketMakingControllerConfigBase]. [id] is inherited from
    [ControllerConfigBase]. After validation the two amount fields hold the
    normalized fractions. *)
Record MarketMakingControllerConfigBase : Type := mkConfig {
  id : string;
  connector_name : string;
  trading_pair : string;
  total_amount_quote : Qc;
  buy_spreads : list Qc;
  buy_amounts_pct : list Qc;
  sell_spreads : list Qc;
  sell_amounts_pct : list Qc;
  executor_refresh_time : Z;
  cooldown_time : Z;
  leverage : Z;
  position_mode : PositionMode;
  closed_executors_buffer : Z
}.

(** What a caller may pass for a spreads field, [Union[List[float], str]],
    and for an amounts field, [Union[List[int], str, None]] ([None] is the
    [None] of [option]). *)
Inductive RawSpreads : Type :=
| SpreadsList (l : list Qc)
| SpreadsStr (s : string).

Inductive RawAmounts : Type :=
| AmountsList (l : list Z)
| AmountsStr (s : string).

(** The four list-valued entries of the dictionary [values] that the
    validators read and write; an entry is absent until its field has been
    validated. For a constructed object the dictionary is [self.__dict__]
    and every entry is present. *)
Record Values : Type := mkValues {
  v_buy_spreads : option (list Qc);
  v_buy_amounts_pct : option (list Qc);
  v_sell_spreads : option (list Qc);
  v_sell_amounts_pct : option (list Qc)
}.

Definition empty_values : Values := mkValues None None None None.

(** [values[key]]. *)
Definition values_getitem (values : Values) (key : string) : result (list Qc) :=
  let entry :=
    if String.eqb key "buy_spreads" then v_buy_spreads values
    else if String.eqb key "buy_amounts_pct" then v_buy_amounts_pct values
    else if String.eqb key "sell_spreads" then v_sell_spreads values
    else if String.eqb key "sell_amounts_pct" then v_sell_amounts_pct values
    else None in
  match entry with
  | Some l => Ok l
  | None => Raise KeyError
  end.

(** [values[key] = l], for the four keys the module stores under. *)
Definition values_setitem (values : Values) (key : string) (l : list Qc) : Values :=
  if String.eqb key "buy_spreads" then
    mkValues (Some l) (v_buy_amounts_pct values) (v_sell_spreads values) (v_sell_amounts_pct values)
  else if String.eqb key "buy_amounts_pct" then
    mkValues (v_buy_spreads values) (Some l) (v_sell_spreads values) (v_sell_amounts_pct values)
  else if String.eqb key "sell_spreads" then
    mkValues (v_buy_spreads values) (v_buy_amounts_pct values) (Some l) (v_sell_amounts_pct values)
  else if String.eqb key "sell_amounts_pct" then
    mkValues (v_buy_spreads values) (v_buy_amounts_pct values) (v_sell_spreads values) (Some l)
  else values.

(** [self.__dict__], and the object whose [__dict__] has become [values]. *)
Definition dict_of (self : MarketMakingControllerConfigBase) : Values :=
  mkValues (Some (buy_spreads self)) (Some (buy_amounts_pct self))
           (Some (sell_spreads self)) (Some (sell_amounts_pct self)).

Definition with_dict (self : MarketMakingControllerConfigBase) (values : Values)
  : MarketMakingControllerConfigBase :=
  let keep (field : option (list Qc)) (old : list Qc) :=
    match field with Some l => l | None => old end in
  mkConfig (id self) (connector_name self) (trading_pair self) (total_amount_quote self)
    (keep (v_buy_spreads values) (buy_spreads self))
    (keep (v_buy_amounts_pct values) (buy_amounts_pct self))
    (keep (v_sell_spreads values) (sell_spreads self))
    (keep (v_sell_amounts_pct values) (sell_amounts_pct self))
    (executor_refresh_time self) (cooldown_time self) (leverage self)
    (position_mode self) (closed_executors_buffer self).

(** [getattr(self, name)] and [setattr(self, name, l)] on the list fields;
    [setattr] is plain assignment. *)
Definition getattr (name : string) : Method MarketMakingControllerConfigBase (list Qc) :=
  fun self =>
    match values_getitem (dict_of self) name with
    | Ok l => (self, Ok l)
    | Raise _ => (self, Raise AttributeError)
    end.

Definition setattr (name : string) (l : list Qc) : Method MarketMakingControllerConfigBase unit :=
  fun self => (with_dict self (values_setitem (dict_of self) name l), Ok tt).

(** [s.replace(old, new)] for a non-empty [old]; [skip] counts the
    characters of a match still to be passed over. *)
Fixpoint replace_from (old new : string) (skip : nat) (s : string) : string :=
  match s with
  | EmptyString => EmptyString
  | String c s' =>
      match skip with
      | S k => replace_from old new k s'
      | O =>
          if String.prefix old s
          then new ++ replace_from old new (String.length old - 1) s'
          else String c (replace_from old new 0 s')
      end
  end.

Definition py_replace (s old new : string) : string := replace_from old new 0 s.

(** The third argument of [parse_and_validate_amounts]: the field object
    that the validation machinery passes, which has a [name], or a plain
    string, which has none. *)
Inductive FieldArg : Type :=
| ModelField (name : string)
| FieldStr (s : string).

(** [field.name]. *)
Definition field_name (field : FieldArg) : result string :=
  match field with
  | ModelField name => Ok name
  | FieldStr _ => Raise AttributeError
  end.

Section Config.

Context {float_parser : FloatParser}.

Definition parse_spreads (v : RawSpreads) : result (list Qc) :=
  match v with
  | SpreadsStr s => mapM (fun x => py_float (py_strip x)) (py_split "," s)
  | SpreadsList l => Ok l
  end.

Definition parse_and_validate_amounts (v : option RawAmounts) (values : Values)
    (field : FieldArg) : result (list Qc) :=
  v <- match v with
       | Some (AmountsStr s) =>
           l <- mapM (fun x => py_int (py_strip x)) (py_split "," s) ;; Ok (Some l)
       | Some (AmountsList l) => Ok (Some l)
       | None => Ok None
       end ;;
  match v with
  | None =>
      name <- field_name field ;;
      let spread_field := py_replace name "amounts_pct" "spreads" in
      spreads <- values_getitem values spread_field ;;
      Ok (map (fun _ => 1) spreads)
  | Some v =>
      name <- field_name field ;;
      spreads <- values_getitem values (py_replace name "amounts_pct" "spreads") ;;
      if negb (Nat.eqb (List.length v) (List.length spreads)) then Raise ValueError
      else Ok (map Z2Qc v)
  end.

Definition normalize_amounts : Method Values unit :=
  buy_amounts_pct <~ (fun values => (values, values_getitem values "buy_amounts_pct")) ;;
  sell_amounts_pct <~ (fun values => (values, values_getitem values "sell_amounts_pct")) ;;
  let total_buy := py_sum buy_amounts_pct in
  let total_sell := py_sum sell_amounts_pct in
  buy <~ lift (mapM (fun amt => py_truediv amt total_buy) buy_amounts_pct) ;;
  (fun values => (values_setitem values "buy_amounts_pct" buy, Ok tt)) ;;;
  sell <~ lift (mapM (fun amt => py_truediv amt total_sell) sell_amounts_pct) ;;
  (fun values => (values_setitem values "sell_amounts_pct" sell, Ok tt)).

Definition update_parameters (trade_type : TradeType) (new_spreads : RawSpreads)
    (new_amounts_pct : option RawAmounts) : Method MarketMakingControllerConfigBase unit :=
  let spreads_field := if TradeType_eqb trade_type BUY then "buy_spreads" else "sell_spreads" in
  let amounts_pct_field :=
    if TradeType_eqb trade_type BUY then "buy_amounts_pct" else "sell_amounts_pct" in
  spreads <~ lift (parse_spreads new_spreads) ;;
  setattr spreads_field spreads ;;;
  match new_amounts_pct with
  | Some _ =>
      self <~ self_ ;;
      amounts <~ lift (parse_and_validate_amounts new_amounts_pct (dict_of self)
                         (FieldStr amounts_pct_field)) ;;
      setattr amounts_pct_field amounts
  | None =>
      spreads <~ getattr spreads_field ;;
      setattr amounts_pct_field (map (fun _ => 1) spreads)
  end ;;;
  (fun self => let (values, r) := normalize_amounts (dict_of self) in
               (with_dict self values, r)).

Definition get_spreads_and_amounts_in_quote (self : MarketMakingControllerConfigBase)
    (trade_type : TradeType) : result (list Qc * list Qc) :=
  let prefix := py_lower (TradeType_name trade_type) in
  spreads <- snd (getattr (prefix ++ "_spreads") self) ;;
  amounts_pct <- snd (getattr (prefix ++ "_amounts_pct") self) ;;
  Ok (spreads, map (fun amt_pct => amt_pct * total_amount_quote self) amounts_pct).

(** *** Construction

    What a caller passes to the constructor. The scalar fields are taken
    as already validated. *)
Record RawConfig : Type := mkRaw {
  raw_id : string;
  raw_connector_name : string;
  raw_trading_pair : string;
  raw_total_amount_quote : Qc;
  raw_buy_spreads : RawSpreads;
  raw_buy_amounts_pct : option RawAmounts;
  raw_sell_spreads : RawSpreads;
  raw_sell_amounts_pct : option RawAmounts;
  raw_executor_refresh_time : Z;
  raw_cooldown_time : Z;
  raw_leverage : Z;
  raw_position_mode : PositionMode;
  raw_closed_executors_buffer : Z
}.

(** One step of the validation of a model: a [ValueError] raised by a
    validator is recorded and the entry stays absent from [values]; any
    other exception leaves the constructor as it is. *)
Definition validate_field (key : string) (r : result (list Qc)) (st : Values * bool)
  : result (Values * bool) :=
  match r with
  | Ok l => Ok (values_setitem (fst st) key l, snd st)
  | Raise ValueError => Ok (fst st, true)
  | Raise e => Raise e
  end.

(** The constructor: the field validators in the order of the field
    declarations, then the root validator (which runs even when a field
    has failed), then [ValidationError] if anything was recorded. *)
Definition build_config (raw : RawConfig) : result MarketMakingControllerConfigBase :=
  st <- validate_field "buy_spreads" (parse_spreads (raw_buy_spreads raw))
          (empty_values, false) ;;
  st <- validate_field "buy_amounts_pct"
          (parse_and_validate_amounts (raw_buy_amounts_pct raw) (fst st)
             (ModelField "buy_amounts_pct")) st ;;
  st <- validate_field "sell_spreads" (parse_spreads (raw_sell_spreads raw)) st ;;
  st <- validate_field "sell_amounts_pct"
          (parse_and_validate_amounts (raw_sell_amounts_pct raw) (fst st)
             (ModelField "sell_amounts_pct")) st ;;
  st <- match normalize_amounts (fst st) with
        | (values, Ok _) => Ok (values, snd st)
        | (_, Raise ValueError) => Ok (fst st, true)
        | (_, Raise e) => Raise e
        end ;;
  match fst st, snd st with
  | mkValues (Some bs) (Some ba) (Some ss) (Some sa), false =>
      Ok (mkConfig (raw_id raw) (raw_connector_name raw) (raw_trading_pair raw)
            (raw_total_amount_quote raw) bs ba ss sa
            (raw_executor_refresh_time raw) (raw_cooldown_time raw) (raw_leverage raw)
            (raw_position_mode raw) (raw_closed_executors_buffer raw))
  | _, _ => Raise ValidationError
  end.

End Config.

(** ** Executors and actions *)

(** Modelled from the spec: [SmartComponentStatus] of
    [hummingbot.smart_components.models.base], with the states the data
    model lists. *)
Inductive SmartComponentStatus : Type := ACTIVE | TRADING | TERMINATED.

Definition SmartComponentStatus_eqb (a b : SmartComponentStatus) : bool :=
  match a, b with
  | ACTIVE, ACTIVE | TRADING, TRADING | TERMINATED, TERMINATED => true
  | _, _ => false
  end.

(** [d[key]] on a dictionary with string keys and values. *)
Fixpoint dict_getitem (d : list (string * string)) (key : string) : result string :=
  match d with
  | [] => Raise KeyError
  | (k, v) :: d' => if String.eqb k key then Ok v else dict_getitem d' key
  end.

(** Modelled from the spec: [ExecutorInfo], the read-only report on one
    executor, with the attributes this module reads. [timestamp] is the
    time of creation; [close_timestamp] is the time of closing, the sort
    key of the executors that have terminated. *)
Module ExecutorInfo.
Record t : Type := mk {
  id : string;
  trade_type : TradeType;
  status : SmartComponentStatus;
  is_active : bool;
  is_trading : bool;
  timestamp : Qc;
  close_timestamp : Qc;
  custom_info : list (string * string)
}.
End ExecutorInfo.

(** Modelled from the spec: the two actions of
    [hummingbot.smart_components.models.executor_actions]; [EC] is the
    class of executor configurations of the concrete strategy. *)
Inductive ExecutorAction (EC : Type) : Type :=
| CreateExecutorAction (controller_id : string) (executor_config : EC)
| StopExecutorAction (executor_id : string).

Arguments CreateExecutorAction {EC} controller_id executor_config.
Arguments StopExecutorAction {EC} executor_id.

Definition is_create {EC} (a : ExecutorAction EC) : bool :=
  match a with CreateExecutorAction _ _ => true | StopExecutorAction _ => false end.

Definition is_stop {EC} (a : ExecutorAction EC) : bool := negb (is_create a).

(** Modelled from the spec: [ControllerBase.filter_executors], which keeps,
    in their order, the executors that satisfy [filter_func]. *)
Definition filter_executors (executors : list ExecutorInfo.t)
    (filter_func : ExecutorInfo.t -> bool) : list ExecutorInfo.t :=
  List.filter filter_func executors.

(** [x in l] for a list of strings. *)
Definition py_in (x : string) (l : list string) : bool := existsb (String.eqb x) l.

Definition Qc_ltb (x y : Qc) : bool :=
  match x ?= y with Lt => true | _ => false end.

(** [sorted(l, key=key, reverse=True)]: descending keys, elements of equal
    key in their original order. *)
Fixpoint insert_desc {A} (key : A -> Qc) (x : A) (l : list A) : list A :=
  match l with
  | [] => [x]
  | y :: l' => if Qc_ltb (key x) (key y) then y :: insert_desc key x l' else x :: l
  end.

Definition sorted_reverse {A} (key : A -> Qc) (l : list A) : list A :=
  fold_right (insert_desc key) [] l.

(** ** The controller *)

(** [processed_data], as [update_market_data] leaves it. *)
Record ProcessedData : Type := mkProcessed {
  reference_price : Qc;
  spread_multiplier : Qc
}.

(** A [MarketMakingControllerBase] during one cycle. [executors_info] is
    inherited from [ControllerBase]; [time_time] is what [time.time()]
    returns during the cycle. *)
Record MarketMakingControllerBase : Type := mkController {
  config : MarketMakingControllerConfigBase;
  processed_data : ProcessedData;
  executors_info : list ExecutorInfo.t;
  time_time : Qc
}.

(** The three methods a concrete strategy supplies or overrides. *)
Class Strategy (EC : Type) : Type := {
  get_executor_config : MarketMakingControllerBase -> string -> Qc -> Qc -> result EC;
  filter_not_active_levels : MarketMakingControllerBase -> list string -> list string;
  executors_to_early_stop : MarketMakingControllerBase -> list (ExecutorAction EC)
}.

(** The methods as the base class has them. *)
Definition base_strategy (EC : Type) : Strategy EC := {|
  get_executor_config := fun _ _ _ _ => Raise NotImplementedError;
  filter_not_active_levels := fun _ not_active_levels => not_active_levels;
  executors_to_early_stop := fun _ => []
|}.

(** A strategy that keeps the base class's two overridable methods and
    whose executor configuration records what it was asked for. *)
Definition recording_strategy : Strategy (string * Qc * Qc) := {|
  get_executor_config := fun _ level_id price amount => Ok (level_id, price, amount);
  filter_not_active_levels := fun _ not_active_levels => not_active_levels;
  executors_to_early_stop := fun _ => []
|}.

Definition EXECUTORS_BUFFER : nat := 5.

Section Controller.

Context {EC : Type} {strategy : Strategy EC}.

Definition get_price_and_amount (self : MarketMakingControllerBase) (level_id : string)
  : result (Qc * Qc) :=
  match py_split "_" level_id with
  | [trade_type; level] =>
      member <- TradeType_getitem (py_upper trade_type) ;;
      '(spreads, amounts_quote) <- get_spreads_and_amounts_in_quote (config self) member ;;
      let reference_price := reference_price (processed_data self) in
      index <- py_int level ;;
      spread <- py_getitem spreads index ;;
      let spread_in_pct := spread * spread_multiplier (processed_data self) in
      let side_multiplier :=
        if py_eq (PyStr trade_type) (PyTradeType BUY) then - (1) else 1 in
      let order_price := reference_price * (1 + side_multiplier * spread_in_pct) in
      amount_quote <- py_getitem amounts_quote index ;;
      amount <- py_truediv amount_quote order_price ;;
      Ok (order_price, amount)
  | _ => Raise ValueError
  end.

Definition get_not_active_levels_ids (self : MarketMakingControllerBase)
    (active_levels_ids : list string) : list string :=
  let missing (trade_type : TradeType) (spreads : list Qc) :=
    List.filter (fun level_id => negb (py_in level_id active_levels_ids))
      (map (fun level => get_level_id_from_side trade_type (Z.of_nat level))
         (seq 0 (List.length spreads))) in
  let buy_ids_missing := missing BUY (buy_spreads (config self)) in
  let sell_ids_missing := missing SELL (sell_spreads (config self)) in
  (buy_ids_missing ++ sell_ids_missing)%list.

(** The first half of [create_actions_proposal], up to the value of its
    local [levels_to_execute]. *)
Definition levels_to_execute (self : MarketMakingControllerBase) : result (list string) :=
  let active_buy_executors :=
    filter_executors (executors_info self)
      (fun executor => TradeType_eqb (ExecutorInfo.trade_type executor) BUY
                       && ExecutorInfo.is_active executor) in
  let active_sell_executors :=
    filter_executors (executors_info self)
      (fun executor => TradeType_eqb (ExecutorInfo.trade_type executor) SELL
                       && ExecutorInfo.is_active executor) in
  active_levels_ids <-
    mapM (fun executor => dict_getitem (ExecutorInfo.custom_info executor) "level_id")
      (active_buy_executors ++ active_sell_executors)%list ;;
  let not_active_levels := get_not_active_levels_ids self active_levels_ids in
  Ok (filter_not_active_levels self not_active_levels).

(** The body of the loop of [create_actions_proposal]. *)
Definition create_action (self : MarketMakingControllerBase) (level_id : string)
  : result (ExecutorAction EC) :=
  '(price, amount) <- get_price_and_amount self level_id ;;
  executor_config <- get_executor_config self level_id price amount ;;
  Ok (CreateExecutorAction (id (config self)) executor_config).

Definition create_actions_proposal (self : MarketMakingControllerBase)
  : result (list (ExecutorAction EC)) :=
  levels <- levels_to_execute self ;;
  mapM (create_action self) levels.

Definition executors_to_refresh (self : MarketMakingControllerBase)
  : list (ExecutorAction EC) :=
  let executors_to_refresh :=
    filter_executors (executors_info self)
      (fun x => negb (ExecutorInfo.is_trading x) && ExecutorInfo.is_active x
                && Qc_ltb (Z2Qc (executor_refresh_time (config self)))
                          (time_time self - ExecutorInfo.timestamp x)) in
  map (fun executor => StopExecutorAction (ExecutorInfo.id executor)) executors_to_refresh.

Definition stop_actions_proposal (self : MarketMakingControllerBase)
  : list (ExecutorAction EC) :=
  (executors_to_refresh self ++ executors_to_early_stop self)%list.

Definition store_actions_proposal (self : MarketMakingControllerBase)
  : list (ExecutorAction EC) :=
  let terminated_executors :=
    filter_executors (executors_info self)
      (fun x => SmartComponentStatus_eqb (ExecutorInfo.status x) TERMINATED) in
  let executors_sorted_by_close_timestamp :=
    sorted_reverse ExecutorInfo.close_timestamp terminated_executors in
  if Nat.ltb EXECUTORS_BUFFER (List.length executors_sorted_by_close_timestamp)
  then map (fun executor => StopExecutorAction (ExecutorInfo.id executor))
         (py_slice_from EXECUTORS_BUFFER (executors_info self))
  else [].

Definition determine_executor_actions (self : MarketMakingControllerBase)
  : result (list (ExecutorAction EC)) :=
  created <- create_actions_proposal self ;;
  Ok ((created ++ stop_actions_proposal self) ++ store_actions_proposal self)%list.

End Controller.

(** ** A float parser and a worked configuration *)

(** [n / d]. *)
Definition ratio (n : Z) (d : positive) : Qc := Q2Qc (n # d).

(** An instance of [float(str)] that reads plain decimal literals (an
    optional sign, digits, an optional point and digits), as in the
    defaults of the spreads fields; the properties below do not depend on
    it. *)
Definition decimal_float : FloatParser := fun s =>
  let stripped := py_strip s in
  let '(negative, body) :=
    match stripped with
    | String "-" b => (true, b)
    | String "+" b => (false, b)
    | b => (false, b)
    end in
  let pieces :=
    match py_split "." body with
    | [i] => if String.eqb i "" then None else Some (i, "")
    | [i; f] => if String.eqb i "" && String.eqb f "" then None else Some (i, f)
    | _ => None
    end in
  match pieces with
  | Some (i, f) =>
      match NilEmpty.uint_of_string i, NilEmpty.uint_of_string f with
      | Some di, Some df =>
          let scale := Z.pow 10 (Z.of_nat (String.length f)) in
          let value := ratio (Z.of_uint di * scale + Z.of_uint df) (Z.to_pos scale) in
          Ok (if negative : bool then - value else value)
      | _, _ => Raise ValueError
      end
  | None => Raise ValueError
  end.

(** The configuration of the scenario: two levels a side at spreads of one
    and two per cent, amounts left out, a total of 100 in quote. *)
Definition example_raw : RawConfig :=
  mkRaw "controller" "binance_perpetual" "WLD-USDT" (Z2Qc 100)
    (SpreadsList [ratio 1 100; ratio 2 100]) None
    (SpreadsList [ratio 1 100; ratio 2 100]) None
    300 15 20 HEDGE 10.

Definition example_config : MarketMakingControllerConfigBase :=
  mkConfig "controller" "binance_perpetual" "WLD-USDT" (Z2Qc 100)
    [ratio 1 100; ratio 2 100] [ratio 1 2; ratio 1 2]
    [ratio 1 100; ratio 2 100] [ratio 1 2; ratio 1 2]
    300 15 20 HEDGE 10.

(** The scenario: reference price 100, spread multiplier 1, no executor. *)
Definition example_controller : MarketMakingControllerBase :=
  mkController example_config (mkProcessed (Z2Qc 100) 1) [] 0.

(** ** Notions used in the statements *)

(** A string without the character [c]. *)
Definition no_char (c : ascii) (s : string) : bool :=
  string_forallb (fun a => negb (Ascii.eqb a c)) s.

(** Descending order of keys. *)
Definition descending {A} (key : A -> Qc) (a b : A) : Prop := key b <= key a.

(** The fractions of a list of weights. *)
Definition normalized (l : list Qc) : list Qc := map (fun amt => amt / py_sum l) l.

(** Weights, at least one, that sum to zero. *)
Definition zero_sum (l : list Qc) : bool :=
  match l with
  | [] => false
  | _ => if Qc_eq_dec (py_sum l) 0 then true else false
  end.

(** [sum(l)] on integers. *)
Definition py_sum_int (l : list Z) : Z := fold_left Z.add l 0%Z.

(** [n] equal fractions. *)
Definition equal_fractions (n : nat) : list Qc := repeat (1 / Z2Qc (Z.of_nat n)) n.

(** The fields of one side. *)
Definition side_spreads (side : TradeType) (cfg : MarketMakingControllerConfigBase)
  : list Qc :=
  match side with BUY => buy_spreads cfg | SELL => sell_spreads cfg end.

Definition side_amounts_pct (side : TradeType) (cfg : MarketMakingControllerConfigBase)
  : list Qc :=
  match side with BUY => buy_amounts_pct cfg | SELL => sell_amounts_pct cfg end.


Definition other_side (side : TradeType) : TradeType :=
  match side with BUY => SELL | SELL => BUY end.

(** The configuration with one list field replaced. *)
Definition set_side_spreads (side : TradeType) (l : list Qc)
    (cfg : MarketMakingControllerConfigBase) : MarketMakingControllerConfigBase :=
  match side with
  | BUY => mkConfig (id cfg) (connector_name cfg) (trading_pair cfg) (total_amount_quote cfg)
             l (buy_amounts_pct cfg) (sell_spreads cfg) (sell_amounts_pct cfg)
             (executor_refresh_time cfg) (cooldown_time cfg) (leverage cfg)
             (position_mode cfg) (closed_executors_buffer cfg)
  | SELL => mkConfig (id cfg) (connector_name cfg) (trading_pair cfg) (total_amount_quote cfg)
             (buy_spreads cfg) (buy_amounts_pct cfg) l (sell_amounts_pct cfg)
             (executor_refresh_time cfg) (cooldown_time cfg) (leverage cfg)
             (position_mode cfg) (closed_executors_buffer cfg)
  end.

Definition set_side_amounts_pct (side : TradeType) (l : list Qc)
    (cfg : MarketMakingControllerConfigBase) : MarketMakingControllerConfigBase :=
  match side with
  | BUY => mkConfig (id cfg) (connector_name cfg) (trading_pair cfg) (total_amount_quote cfg)
             (buy_spreads cfg) l (sell_spreads cfg) (sell_amounts_pct cfg)
             (executor_refresh_time cfg) (cooldown_time cfg) (leverage cfg)
             (position_mode cfg) (closed_executors_buffer cfg)
  | SELL => mkConfig (id cfg) (connector_name cfg) (trading_pair cfg) (total_amount_quote cfg)
             (buy_spreads cfg) (buy_amounts_pct cfg) (sell_spreads cfg) l
             (executor_refresh_time cfg) (cooldown_time cfg) (leverage cfg)
             (position_mode cfg) (closed_executors_buffer cfg)
  end.

(** The fields of a configuration other than the four lists. *)
Definition scalars (cfg : MarketMakingControllerConfigBase)
  : string * string * string * Qc * Z * Z * Z * PositionMode * Z :=
  (id cfg, connector_name cfg, trading_pair cfg, total_amount_quote cfg,
   executor_refresh_time cfg, cooldown_time cfg, leverage cfg, position_mode cfg,
   closed_executors_buffer cfg).

(** The last statement of [update_parameters], the call of
    [normalize_amounts] on [self.__dict__]. *)
Definition renormalize : Method MarketMakingControllerConfigBase unit :=
  fun self => let (values, r) := normalize_amounts (dict_of self) in (with_dict self values, r).

(** The object that the constructor returns from validated fields. *)
Definition built (raw : RawConfig) (bs ba ss sa : list Qc)
  : MarketMakingControllerConfigBase :=
  mkConfig (raw_id raw) (raw_connector_name raw) (raw_trading_pair raw)
    (raw_total_amount_quote raw) bs ba ss sa
    (raw_executor_refresh_time raw) (raw_cooldown_time raw) (raw_leverage raw)
    (raw_position_mode raw) (raw_closed_executors_buffer raw).

(** The four field validators return these lists. *)
Definition validated {float_parser : FloatParser} (raw : RawConfig)
    (bs ba ss sa : list Qc) : Prop :=
  parse_spreads (raw_buy_spreads raw) = Ok bs
  /\ parse_and_validate_amounts (raw_buy_amounts_pct raw)
       (mkValues (Some bs) None None None) (ModelField "buy_amounts_pct") = Ok ba
  /\ parse_spreads (raw_sell_spreads raw) = Ok ss
  /\ parse_and_validate_amounts (raw_sell_amounts_pct raw)
       (mkValues (Some bs) (Some ba) (Some ss) None) (ModelField "sell_amounts_pct") = Ok sa.

(** Weights that sum to zero on the buy side, and a configuration without
    a buy level. *)
Definition zero_weights_raw : RawConfig :=
  mkRaw "controller" "binance_perpetual" "WLD-USDT" (Z2Qc 100)
    (SpreadsList [ratio 1 100; ratio 2 100]) (Some (AmountsList [0; 0]%Z))
    (SpreadsList [ratio 1 100; ratio 2 100]) None
    300 15 20 HEDGE 10.

Definition no_buy_level_raw : RawConfig :=
  mkRaw "controller" "binance_perpetual" "WLD-USDT" (Z2Qc 100)
    (SpreadsList []) None
    (SpreadsList [ratio 1 100; ratio 2 100]) None
    300 15 20 HEDGE 10.

Definition no_buy_level_config : MarketMakingControllerConfigBase :=
  mkConfig "controller" "binance_perpetual" "WLD-USDT" (Z2Qc 100)
    [] [] [ratio 1 100; ratio 2 100] [ratio 1 2; ratio 1 2]
    300 15 20 HEDGE 10.

(** ** The position mode and the market data *)

Definition PositionMode_name (m : PositionMode) : string :=
  match m with HEDGE => "HEDGE" | ONEWAY => "ONEWAY" end.

(** [PositionMode.__members__], by name. *)
Definition PositionMode_members : list (string * PositionMode) :=
  [("HEDGE", HEDGE); ("ONEWAY", ONEWAY)].

(** [PositionMode[name]]. *)
Fixpoint members_getitem (members : list (string * PositionMode)) (name : string)
  : result PositionMode :=
  match members with
  | [] => Raise KeyError
  | (k, m) :: members' => if String.eqb k name then Ok m else members_getitem members' name
  end.

Definition validate_position_mode (v : string) : result PositionMode :=
  if existsb (fun entry => String.eqb (fst entry) (py_upper v)) PositionMode_members
  then members_getitem PositionMode_members (py_upper v)
  else Raise ValueError.

(** The number of occurrences of a character. *)
Fixpoint count_char (c : ascii) (s : string) : nat :=
  match s with
  | EmptyString => O
  | String a s' => if Ascii.eqb a c then S (count_char c s') else count_char c s'
  end.

(** The level ids of one side of the ladder, in the order of the levels. *)
Definition side_level_ids (side : TradeType) (cfg : MarketMakingControllerConfigBase)
  : list string :=
  map (fun level => get_level_id_from_side side (Z.of_nat level))
    (seq 0 (List.length (side_spreads side cfg))).

(** The test of the refresh pass on one executor. *)
Definition is_stale (self : MarketMakingControllerBase) (x : ExecutorInfo.t) : Prop :=
  ExecutorInfo.is_trading x = false
  /\ ExecutorInfo.is_active x = true
  /\ Z2Qc (executor_refresh_time (config self)) < time_time self - ExecutorInfo.timestamp x.

(** Modelled from the spec: the market data provider as the controller
    uses it, the mid price of a trading pair on a connector or the
    exception of the lookup. *)
Definition MarketDataProvider : Type := string -> string -> result Qc.

(** [update_market_data]; the controller that it returns is [self] after
    the assignment of [processed_data]. *)
Definition update_market_data (market_data_provider : MarketDataProvider)
    (self : MarketMakingControllerBase) : result MarketMakingControllerBase :=
  reference_price <-
    market_data_provider (connector_name (config self)) (trading_pair (config self)) ;;
  Ok (mkController (config self) (mkProcessed reference_price 1)
        (executors_info self) (time_time self)).

(** ** Normalization in binary64

    The two comprehensions of [normalize_amounts] with the rounding of
    binary64: on the integer weights that the validators leave, where the
    sum is one of integers and each quotient of two integers is rounded
    once, and on fractions that are already stored, as when
    [update_parameters] normalizes [self.__dict__] again, where the sum
    adds the floating-point numbers from the left. *)

(** The binary64 number nearest to an integer below [2^63] in size. *)
Definition float_of_int (n : Z) : float :=
  match n with
  | Z0 => PrimFloat.of_uint63 0
  | Zpos _ => PrimFloat.of_uint63 (Uint63.of_Z n)
  | Zneg p => PrimFloat.opp (PrimFloat.of_uint63 (Uint63.of_Z (Zpos p)))
  end.

Definition py_sum_binary64 (l : list float) : float :=
  fold_left PrimFloat.add l (PrimFloat.of_uint63 0).

(** [[amt / total for amt in amounts]] on integer weights; the quotient
    of the two converted integers is the rounded quotient of the integers
    when both are binary64 numbers or the divisor is 1. *)
Definition normalize_ints_binary64 (weights : list Z) : list float :=
  let total := py_sum_int weights in
  map (fun amt => PrimFloat.div (float_of_int amt) (float_of_int total)) weights.

(** [[amt / total for amt in amounts]] on stored fractions. *)
Definition normalize_floats_binary64 (amounts : list float) : list float :=
  let total := py_sum_binary64 amounts in
  map (fun amt => PrimFloat.div amt total) amounts.

(** * Properties *)

(** ** Strings and integers *)

Lemma string_forallb_impl (p q : ascii -> bool) (s : string) :
  (forall c, p c = true -> q c = true) ->
  string_forallb p s = true -> string_forallb q s = true.
Proof.
  intros Hpq. induction s as [|c s IH]; simpl; auto.
  intros H. apply andb_true_iff in H as [Hc Hs].
  now rewrite (Hpq _ Hc), (IH Hs).
Qed.

Lemma digits_of_uint (d : Decimal.uint) :
  string_forallb is_digit (NilEmpty.string_of_uint d) = true.
Proof. induction d; simpl; auto. Qed.

Lemma is_digit_not_space (c : ascii) : is_digit c = true -> is_space c = false.
Proof.
  unfold is_digit, is_space. intros H.
  apply andb_true_iff in H as [H1 H2].
  apply N.leb_le in H1. apply N.leb_le in H2.
  apply orb_false_iff. split; apply andb_false_iff.
  - right. apply N.leb_gt. lia.
  - right. apply N.leb_gt. lia.
Qed.

Lemma is_digit_not_underscore (c : ascii) :
  is_digit c = true -> Ascii.eqb c "_" = false.
Proof.
  intros H. destruct (Ascii.eqb_spec c "_") as [->|]; [discriminate H | reflexivity].
Qed.

Lemma py_split_no_sep (sep : ascii) (s : string) :
  no_char sep s = true -> py_split sep s = [s].
Proof.
  induction s as [|c s IH]; simpl; [reflexivity|].
  intros H. apply andb_true_iff in H as [Hc Hs].
  apply negb_true_iff in Hc. now rewrite Hc, (IH Hs).
Qed.

Lemma py_split_app (sep : ascii) (a b : string) :
  no_char sep a = true ->
  py_split sep (a ++ String sep b) = a :: py_split sep b.
Proof.
  induction a as [|c a IH]; simpl.
  - now rewrite Ascii.eqb_refl.
  - intros H. apply andb_true_iff in H as [Hc Ha].
    apply negb_true_iff in Hc. now rewrite Hc, (IH Ha).
Qed.

Lemma py_lstrip_id (c : ascii) (s : string) :
  is_space c = false -> py_lstrip (String c s) = String c s.
Proof. intros H. simpl. now rewrite H. Qed.

Lemma py_rstrip_id (s : string) :
  string_forallb (fun c => negb (is_space c)) s = true -> py_rstrip s = s.
Proof.
  induction s as [|c s IH]; simpl; [reflexivity|].
  intros H. apply andb_true_iff in H as [Hc Hs].
  apply negb_true_iff in Hc. rewrite (IH Hs), Hc. now destruct s.
Qed.

Lemma py_strip_id (s : string) :
  string_forallb (fun c => negb (is_space c)) s = true -> py_strip s = s.
Proof.
  intros H. unfold py_strip.
  destruct s as [|c s]; [reflexivity|].
  pose proof H as H'. simpl in H'. apply andb_true_iff in H' as [Hc _].
  apply negb_true_iff in Hc. rewrite (py_lstrip_id _ _ Hc).
  now apply py_rstrip_id.
Qed.

Lemma int_digits_id (s : string) (prev : bool) :
  string_forallb is_digit s = true ->
  (s <> EmptyString \/ prev = true) ->
  int_digits prev s = Some s.
Proof.
  revert prev. induction s as [|c s IH]; intros prev Hd Hne; simpl.
  - destruct Hne as [Hne | ->]; [now destruct Hne | reflexivity].
  - simpl in Hd. apply andb_true_iff in Hd as [Hc Hs].
    rewrite (is_digit_not_underscore _ Hc), Hc, (IH true Hs); auto.
Qed.

Lemma string_of_uint_nonempty (d : Decimal.uint) :
  d <> Decimal.Nil -> NilEmpty.string_of_uint d <> EmptyString.
Proof. destruct d; simpl; congruence. Qed.

Lemma parse_unsigned_of_uint (d : Decimal.uint) :
  d <> Decimal.Nil ->
  parse_unsigned (NilEmpty.string_of_uint d) = Ok (Z.of_uint d).
Proof.
  intros Hd. unfold parse_unsigned.
  rewrite int_digits_id.
  - now rewrite NilEmpty.usu.
  - apply digits_of_uint.
  - left. now apply string_of_uint_nonempty.
Qed.

Lemma uint_first_char (d : Decimal.uint) (c : ascii) (s : string) :
  NilEmpty.string_of_uint d = String c s -> is_digit c = true.
Proof.
  intros H. pose proof (digits_of_uint d) as Hd. rewrite H in Hd.
  simpl in Hd. now apply andb_true_iff in Hd as [Hc _].
Qed.

Lemma py_str_chars (n : Z) :
  string_forallb (fun c => is_digit c || Ascii.eqb c "-") (py_str n) = true.
Proof.
  unfold py_str.
  assert (H : forall d, string_forallb (fun c => is_digit c || Ascii.eqb c "-")
                          (NilEmpty.string_of_uint d) = true).
  { intros d. apply string_forallb_impl with (p := is_digit); [|apply digits_of_uint].
    intros c ->. reflexivity. }
  destruct (Z.to_int n) as [d|d]; simpl; auto.
Qed.

Lemma py_str_no_underscore (n : Z) : no_char "_" (py_str n) = true.
Proof.
  apply string_forallb_impl with (2 := py_str_chars n).
  intros c Hc. apply orb_true_iff in Hc as [Hc|Hc].
  - now rewrite (is_digit_not_underscore _ Hc).
  - apply Ascii.eqb_eq in Hc. now subst c.
Qed.

Lemma py_str_no_space (n : Z) :
  string_forallb (fun c => negb (is_space c)) (py_str n) = true.
Proof.
  apply string_forallb_impl with (2 := py_str_chars n).
  intros c Hc. apply orb_true_iff in Hc as [Hc|Hc].
  - now rewrite (is_digit_not_space _ Hc).
  - apply Ascii.eqb_eq in Hc. now subst c.
Qed.

(** [int(str(n)) == n] for every integer. *)
Lemma py_int_py_str (n : Z) : py_int (py_str n) = Ok n.
Proof.
  unfold py_int. rewrite (py_strip_id _ (py_str_no_space n)).
  unfold py_str. rewrite <- (DecimalZ.of_to n) at 2.
  destruct n as [|p|p]; simpl Z.to_int; unfold Z.of_int.
  - reflexivity.
  - simpl NilEmpty.string_of_int.
    pose proof (parse_unsigned_of_uint _ (DecimalPos.Unsigned.to_uint_nonnil p)) as Hp.
    destruct (NilEmpty.string_of_uint (Pos.to_uint p)) as [|c s] eqn:E.
    + exact Hp.
    + pose proof (uint_first_char _ _ _ E) as Hc.
      assert (c <> "-"%char /\ c <> "+"%char) as [Hm Hpl].
      { split; intros ->; discriminate Hc. }
      rewrite <- Hp.
      destruct c as [[|] [|] [|] [|] [|] [|] [|] [|]]; try reflexivity;
        exfalso; [now apply Hm | now apply Hpl].
  - simpl NilEmpty.string_of_int. cbv iota beta.
    rewrite (parse_unsigned_of_uint _ (DecimalPos.Unsigned.to_uint_nonnil p)).
    reflexivity.
Qed.

Lemma level_id_split (trade_type : TradeType) (level : Z) :
  py_split "_" (get_level_id_from_side trade_type level)
  = [py_lower (TradeType_name trade_type); py_str level].
Proof.
  unfold get_level_id_from_side.
  replace ("_" ++ py_str level) with (String "_" (py_str level)) by reflexivity.
  rewrite py_split_app.
  - now rewrite (py_split_no_sep _ _ (py_str_no_underscore level)).
  - now destruct trade_type.
Qed.

Lemma level_from_level_id_of_side (trade_type : TradeType) (level : Z) :
  get_level_from_level_id (get_level_id_from_side trade_type level) = Ok level.
Proof.
  unfold get_level_from_level_id. rewrite level_id_split.
  cbn [py_getitem List.length nth_error]. simpl. apply py_int_py_str.
Qed.

Lemma trade_type_from_level_id_of_side (trade_type : TradeType) (level : Z) :
  get_trade_type_from_level_id (get_level_id_from_side trade_type level) = trade_type.
Proof. now destruct trade_type. Qed.

(** C10. A level id built by [get_level_id_from_side] from a side and a
    non-negative index is read back by [get_trade_type_from_level_id] and
    [get_level_from_level_id] as that side and that index. *)
Theorem level_id_round_trip (trade_type : TradeType) (level : Z) :
  (0 <= level)%Z ->
  get_trade_type_from_level_id (get_level_id_from_side trade_type level) = trade_type
  /\ get_level_from_level_id (get_level_id_from_side trade_type level) = Ok level.
Proof.
  intros _. split.
  - apply trade_type_from_level_id_of_side.
  - apply level_from_level_id_of_side.
Qed.

Lemma level_id_round_trip_witness :
  (0 <= 7)%Z
  /\ get_trade_type_from_level_id (get_level_id_from_side SELL 7) = SELL
  /\ get_level_from_level_id (get_level_id_from_side SELL 7) = Ok 7%Z.
Proof. split; [lia | apply (level_id_round_trip SELL 7); lia]. Defined.

(** ** Closed computations on rationals *)

Lemma Qc_eq_this (x y : Qc) : this x = this y -> x = y.
Proof. intros H. apply Qc_is_canon. now rewrite H. Qed.

(** Equality of closed values that contain rationals. *)
Ltac qc_compute :=
  vm_compute;
  repeat first
    [ reflexivity
    | apply Qc_eq_this; vm_compute; reflexivity
    | f_equal ].

Example decimal_float_examples :
  decimal_float "0.01" = Ok (ratio 1 100) /\ decimal_float " 0.02" = Ok (ratio 2 100)
  /\ decimal_float "-1.5" = Ok (ratio (-3) 2) /\ decimal_float "7" = Ok (Z2Qc 7)
  /\ decimal_float "abc" = Raise ValueError /\ decimal_float "" = Raise ValueError.
Proof. repeat split; qc_compute. Qed.

Example build_example :
  build_config (float_parser := decimal_float) example_raw = Ok example_config.
Proof. qc_compute. Qed.

Example build_default_strings :
  build_config (float_parser := decimal_float)
    (mkRaw "controller" "binance_perpetual" "WLD-USDT" (Z2Qc 100)
       (SpreadsStr "0.01, 0.02") None (SpreadsStr "0.01,0.02") None 300 15 20 HEDGE 10)
  = Ok example_config.
Proof. qc_compute. Qed.

(** ** Price and amount of a level *)


(** Whatever the level id, the price that [get_price_and_amount] returns
    is the reference price scaled by one plus the effective spread: the
    comparison that selects the multiplier [-1] is one of a string with a
    member of [TradeType], which never holds. *)
Lemma get_price_and_amount_price (self : MarketMakingControllerBase)
    (level_id : string) (price amount : Qc) :
  get_price_and_amount self level_id = Ok (price, amount) ->
  exists trade_type level member index spreads amounts_quote spread,
    py_split "_" level_id = [trade_type; level]
    /\ TradeType_getitem (py_upper trade_type) = Ok member
    /\ get_spreads_and_amounts_in_quote (config self) member = Ok (spreads, amounts_quote)
    /\ py_int level = Ok index
    /\ py_getitem spreads index = Ok spread
    /\ price = reference_price (processed_data self)
               * (1 + 1 * (spread * spread_multiplier (processed_data self))).
Proof.
  unfold get_price_and_amount.
  destruct (py_split "_" level_id) as [|trade_type [|level [|? ?]]]; try discriminate.
  destruct (TradeType_getitem (py_upper trade_type)) as [member|] eqn:Em; [|discriminate].
  cbn [bind].
  destruct (get_spreads_and_amounts_in_quote (config self) member)
    as [[spreads amounts_quote]|] eqn:Eq; [|discriminate].
  cbn [bind].
  destruct (py_int level) as [index|] eqn:Ei; [|discriminate]. cbn [bind].
  destruct (py_getitem spreads index) as [spread|] eqn:Es; [|discriminate].
  cbn [bind py_eq].
  destruct (py_getitem amounts_quote index) as [amount_quote|]; [|discriminate].
  cbn [bind].
  destruct (py_truediv _ _) as [a|]; [|discriminate]. cbn [bind].
  intros [= <- <-].
  exists trade_type, level, member, index, spreads, amounts_quote, spread.
  repeat split; assumption || reflexivity.
Qed.

Lemma Qc_scaled_up (r x : Qc) : 0 < r -> 0 < x -> r < r * (1 + 1 * x).
Proof.
  unfold Qclt, Qcmult, Qcplus, Q2Qc. cbn [this]. intros Hr Hx.
  rewrite Qred_correct in Hr, Hx. rewrite !Qred_correct. nra.
Qed.

(** C1, at a buy level. With the configuration of the scenario, reference
    price 100 and spread multiplier 1, [get_price_and_amount "buy_0"]
    returns the price 101, above the reference price, where a buy level is
    to sit below it. *)
Theorem buy_level_priced_above_reference :
  get_price_and_amount example_controller "buy_0" = Ok (Z2Qc 101, ratio 50 101)
  /\ reference_price (processed_data example_controller) < Z2Qc 101
  /\ nth_error (buy_spreads (config example_controller)) 0 = Some (ratio 1 100)
  /\ 0 < ratio 1 100
  /\ 0 < reference_price (processed_data example_controller)
  /\ 0 < spread_multiplier (processed_data example_controller).
Proof.
  split; [qc_compute|].
  repeat split.
Qed.

Lemma py_getitem_In {A} (l : list A) (i : Z) (x : A) :
  py_getitem l i = Ok x -> In x l.
Proof.
  unfold py_getitem. destruct (_ || _); [discriminate|].
  destruct (nth_error l _) as [y|] eqn:E; [|discriminate].
  intros [= <-]. eapply nth_error_In, E.
Qed.

Lemma get_spreads_and_amounts_in_quote_eq
    (self : MarketMakingControllerConfigBase) (trade_type : TradeType) :
  get_spreads_and_amounts_in_quote self trade_type
  = Ok (match trade_type with BUY => buy_spreads self | SELL => sell_spreads self end,
        map (fun amt_pct => amt_pct * total_amount_quote self)
          (match trade_type with
           | BUY => buy_amounts_pct self
           | SELL => sell_amounts_pct self
           end)).
Proof. now destruct trade_type. Qed.

(** Every price that [get_price_and_amount] returns, on a buy-side level
    id as much as on a sell-side one, is above a positive reference price
    when the spreads and the multiplier are positive. *)
Lemma price_above_reference (self : MarketMakingControllerBase)
    (level_id : string) (price amount : Qc) :
  0 < reference_price (processed_data self) ->
  0 < spread_multiplier (processed_data self) ->
  Forall (fun s => 0 < s) (buy_spreads (config self)) ->
  Forall (fun s => 0 < s) (sell_spreads (config self)) ->
  get_price_and_amount self level_id = Ok (price, amount) ->
  reference_price (processed_data self) < price.
Proof.
  intros Hr Hm Hb Hs H.
  apply get_price_and_amount_price in H
    as (trade_type & level & member & index & spreads & amounts & spread
        & _ & _ & Hq & _ & Hg & ->).
  rewrite get_spreads_and_amounts_in_quote_eq in Hq. injection Hq as <- _.
  apply py_getitem_In in Hg.
  assert (Hsp : 0 < spread).
  { destruct member; [apply (proj1 (Forall_forall _ _) Hb) | apply (proj1 (Forall_forall _ _) Hs)];
      exact Hg. }
  apply Qc_scaled_up; [exact Hr|].
  replace 0 with (0 * spread_multiplier (processed_data self)) by ring.
  now apply Qcmult_lt_compat_r.
Qed.

(** ** The scenario of an empty snapshot *)

(** C2, as stated: the four actions of the statement, with buy prices 99
    and 98 and 25 of quote a level, are not what
    [determine_executor_actions] returns in the scenario. *)
Lemma scenario_not_as_stated :
  determine_executor_actions (strategy := recording_strategy) example_controller
  <> Ok [CreateExecutorAction "controller" ("buy_0", Z2Qc 99, ratio 25 99);
         CreateExecutorAction "controller" ("buy_1", Z2Qc 98, ratio 25 98);
         CreateExecutorAction "controller" ("sell_0", Z2Qc 101, ratio 25 101);
         CreateExecutorAction "controller" ("sell_1", Z2Qc 102, ratio 25 102)].
Proof.
  intros H.
  apply (f_equal (fun r =>
           match r with
           | Ok [_; _; CreateExecutorAction _ (_, _, amount); _] => this amount
           | _ => 0%Q
           end)) in H.
  vm_compute in H. discriminate H.
Qed.

(** C2, amended. In the scenario [determine_executor_actions] returns
    exactly four [CreateExecutorAction]s, for [buy_0], [buy_1], [sell_0]
    and [sell_1] in this order, and nothing else; every level is allotted
    50 of quote, so that its amount is 50 over its price; the sell levels
    are priced at 101 and 102. *)
Theorem scenario_four_creates :
  exists buy_0_price buy_1_price : Qc,
    determine_executor_actions (strategy := recording_strategy) example_controller
    = Ok [CreateExecutorAction "controller" ("buy_0", buy_0_price, Z2Qc 50 / buy_0_price);
          CreateExecutorAction "controller" ("buy_1", buy_1_price, Z2Qc 50 / buy_1_price);
          CreateExecutorAction "controller" ("sell_0", Z2Qc 101, ratio 50 101);
          CreateExecutorAction "controller" ("sell_1", Z2Qc 102, ratio 50 102)].
Proof.
  exists (Z2Qc 101), (Z2Qc 102). qc_compute.
Qed.

(** ** The action list of a cycle *)

Lemma mapM_ok_Forall2 {A B} (f : A -> result B) (l : list A) (ys : list B) :
  mapM f l = Ok ys -> Forall2 (fun x y => f x = Ok y) l ys.
Proof.
  revert ys. induction l as [|x l IH]; simpl; intros ys H.
  - injection H as <-. constructor.
  - destruct (f x) as [y|] eqn:Ex; [|discriminate]. cbn [bind] in H.
    destruct (mapM f l) as [ys'|]; [|discriminate]. cbn [bind] in H.
    injection H as <-. constructor; auto.
Qed.

Lemma mapM_ok_In {A B} (f : A -> result B) (l : list A) (ys : list B) (x : A) (y : B) :
  mapM f l = Ok ys -> In x l -> f x = Ok y -> In y ys.
Proof.
  intros H. apply mapM_ok_Forall2 in H.
  induction H as [|x' y' l' ys' Hxy _ IH]; intros Hin Hx; [contradiction|].
  destruct Hin as [->|Hin].
  - left. congruence.
  - right. now apply IH.
Qed.

Lemma py_in_true (x : string) (l : list string) : In x l -> py_in x l = true.
Proof.
  intros H. unfold py_in. apply existsb_exists. exists x. split; [exact H|].
  apply String.eqb_refl.
Qed.

Section Cycle.

Context {EC : Type} {strategy : Strategy EC}.

Lemma create_action_is_create (self : MarketMakingControllerBase)
    (level_id : string) (a : ExecutorAction EC) :
  create_action self level_id = Ok a -> is_create a = true.
Proof.
  unfold create_action.
  destruct (get_price_and_amount self level_id) as [[price amount]|]; [|discriminate].
  cbn [bind]. destruct (get_executor_config _ _ _ _); [|discriminate].
  now intros [= <-].
Qed.

Lemma created_are_creates (self : MarketMakingControllerBase)
    (created : list (ExecutorAction EC)) :
  create_actions_proposal self = Ok created -> forallb is_create created = true.
Proof.
  unfold create_actions_proposal.
  destruct (levels_to_execute self) as [levels|]; [|discriminate]. cbn [bind].
  intros H. apply mapM_ok_Forall2 in H.
  induction H as [|level a levels created Ha _ IH]; [reflexivity|].
  simpl. now rewrite (create_action_is_create _ _ _ Ha).
Qed.

Lemma stops_are_stops (ids : list ExecutorInfo.t) :
  forallb is_stop
    (map (fun executor => @StopExecutorAction EC (ExecutorInfo.id executor)) ids) = true.
Proof. induction ids; simpl; auto. Qed.

(** C7. The list that [determine_executor_actions] returns is the create
    actions, then the stop actions of the refresh pass, then those of the
    early-stop pass, then those of the buffer pass, in this order; the
    first part holds [CreateExecutorAction]s only, the refresh and the
    buffer parts [StopExecutorAction]s only. When the create pass raises,
    so does the call. *)
Theorem actions_in_pass_order (self : MarketMakingControllerBase) :
  determine_executor_actions self
  = match create_actions_proposal self with
    | Ok created =>
        Ok (created ++ executors_to_refresh self ++ executors_to_early_stop self
              ++ store_actions_proposal self)%list
    | Raise e => Raise e
    end
  /\ (forall created, create_actions_proposal self = Ok created ->
                      forallb is_create created = true)
  /\ forallb is_stop (executors_to_refresh (EC := EC) self) = true
  /\ forallb is_stop (store_actions_proposal (EC := EC) self) = true.
Proof.
  repeat split.
  - unfold determine_executor_actions, stop_actions_proposal.
    destruct (create_actions_proposal self) as [created|]; [|reflexivity].
    cbn [bind]. now rewrite <- !app_assoc.
  - apply created_are_creates.
  - apply stops_are_stops.
  - unfold store_actions_proposal. destruct (Nat.ltb _ _); [apply stops_are_stops | reflexivity].
Qed.

End Cycle.

(** ** The buffer pass *)

Section Sorting.

Context {A : Type} (key : A -> Qc).

Lemma Qc_ltb_lt (x y : Qc) : Qc_ltb x y = true <-> x < y.
Proof.
  unfold Qc_ltb. rewrite Qclt_alt. destruct (x ?= y); intuition discriminate.
Qed.

Lemma Qc_ltb_ge (x y : Qc) : Qc_ltb x y = false -> y <= x.
Proof.
  intros H. apply Qcnot_lt_le. intros Hlt.
  apply Qc_ltb_lt in Hlt. congruence.
Qed.

Lemma insert_desc_perm (x : A) (l : list A) :
  Permutation (insert_desc key x l) (x :: l).
Proof.
  induction l as [|y l IH]; simpl; [reflexivity|].
  destruct (Qc_ltb (key x) (key y)); [|reflexivity].
  rewrite IH. apply perm_swap.
Qed.

Lemma sorted_reverse_perm (l : list A) : Permutation (sorted_reverse key l) l.
Proof.
  induction l as [|x l IH]; simpl; [reflexivity|].
  rewrite insert_desc_perm. now constructor.
Qed.

Lemma sorted_reverse_length (l : list A) :
  List.length (sorted_reverse key l) = List.length l.
Proof. apply Permutation_length, sorted_reverse_perm. Qed.

Lemma insert_desc_hd (x a : A) (l : list A) :
  descending key a x -> HdRel (descending key) a l -> HdRel (descending key) a (insert_desc key x l).
Proof.
  intros Hax Hl. destruct l as [|y l]; simpl; [now constructor|].
  destruct (Qc_ltb (key x) (key y)); constructor; auto.
  now inversion Hl.
Qed.

Lemma insert_desc_sorted (x : A) (l : list A) :
  Sorted (descending key) l -> Sorted (descending key) (insert_desc key x l).
Proof.
  induction 1 as [|y l Hs IH Hhd]; simpl; [repeat constructor|].
  destruct (Qc_ltb (key x) (key y)) eqn:E.
  - constructor; [exact IH|]. apply insert_desc_hd; [|exact Hhd].
    apply Qc_ltb_lt in E. now apply Qclt_le_weak.
  - constructor; [now constructor|]. constructor. now apply Qc_ltb_ge.
Qed.

Lemma sorted_reverse_sorted (l : list A) : Sorted (descending key) (sorted_reverse key l).
Proof.
  induction l as [|x l IH]; simpl; [constructor | now apply insert_desc_sorted].
Qed.

End Sorting.

(** C8. The buffer pass takes the executors whose status is [TERMINATED],
    sorts them by close timestamp, latest first, and counts them; when the
    count exceeds [EXECUTORS_BUFFER], which is 5, it returns one
    [StopExecutorAction] for each executor of the whole snapshot from
    position [EXECUTORS_BUFFER] on, in the order of the snapshot and
    whatever the status of these executors; otherwise it returns nothing. *)
Theorem buffer_pass_by_index (EC : Type) (self : MarketMakingControllerBase) :
  let terminated :=
    List.filter
      (fun x => SmartComponentStatus_eqb (ExecutorInfo.status x) TERMINATED)
      (executors_info self) in
  let by_close := sorted_reverse ExecutorInfo.close_timestamp terminated in
  Permutation by_close terminated
  /\ Sorted (descending ExecutorInfo.close_timestamp) by_close
  /\ EXECUTORS_BUFFER = 5%nat
  /\ store_actions_proposal (EC := EC) self
     = if Nat.ltb EXECUTORS_BUFFER (List.length terminated)
       then map (fun executor => StopExecutorAction (ExecutorInfo.id executor))
              (skipn EXECUTORS_BUFFER (executors_info self))
       else [].
Proof.
  intros terminated by_close. repeat split.
  - apply sorted_reverse_perm.
  - apply sorted_reverse_sorted.
  - unfold store_actions_proposal, filter_executors, py_slice_from.
    fold terminated. now rewrite sorted_reverse_length.
Qed.

(** ** Levels that already have an active executor *)

Section CreatePass.

Context {EC : Type} {strategy : Strategy EC}.

Lemma get_not_active_levels_ids_excludes (self : MarketMakingControllerBase)
    (active_levels_ids : list string) (level_id : string) :
  In level_id active_levels_ids ->
  ~ In level_id (get_not_active_levels_ids self active_levels_ids).
Proof.
  intros Hact Hin. unfold get_not_active_levels_ids in Hin.
  apply in_app_or in Hin.
  destruct Hin as [Hin|Hin]; apply filter_In in Hin as [_ Hin];
    rewrite (py_in_true _ _ Hact) in Hin; discriminate Hin.
Qed.

Lemma active_executor_is_collected (self : MarketMakingControllerBase)
    (executor : ExecutorInfo.t) :
  In executor (executors_info self) ->
  ExecutorInfo.is_active executor = true ->
  In executor
    (filter_executors (executors_info self)
       (fun executor => TradeType_eqb (ExecutorInfo.trade_type executor) BUY
                        && ExecutorInfo.is_active executor)
     ++ filter_executors (executors_info self)
          (fun executor => TradeType_eqb (ExecutorInfo.trade_type executor) SELL
                           && ExecutorInfo.is_active executor))%list.
Proof.
  intros Hin Hact. apply in_or_app. unfold filter_executors.
  destruct (ExecutorInfo.trade_type executor) eqn:E; [left|right];
    apply filter_In; (split; [exact Hin|]); now rewrite E, Hact.
Qed.

Lemma bound_level_not_to_execute (self : MarketMakingControllerBase)
    (executor : ExecutorInfo.t) (level_id : string) (levels : list string) :
  (forall not_active_levels,
      incl (filter_not_active_levels self not_active_levels) not_active_levels) ->
  In executor (executors_info self) ->
  ExecutorInfo.is_active executor = true ->
  dict_getitem (ExecutorInfo.custom_info executor) "level_id" = Ok level_id ->
  levels_to_execute self = Ok levels ->
  ~ In level_id levels.
Proof.
  intros Hhook Hin Hact Hbound. unfold levels_to_execute.
  destruct (mapM _ _) as [active_levels_ids|] eqn:Eids; [|discriminate].
  cbn [bind]. intros [= <-] Hlevel.
  apply Hhook in Hlevel. revert Hlevel.
  apply get_not_active_levels_ids_excludes.
  eapply mapM_ok_In; [exact Eids | | exact Hbound].
  now apply active_executor_is_collected.
Qed.

(** C9. When the overridable filter only restricts the levels it is given
    (the base class returns them as they are), a level id that the
    [custom_info] of an active executor of the snapshot carries under
    ["level_id"] is not among the levels to execute, and the create list,
    when there is one, holds one action for each of these levels, in
    order, and so none for that level. The passes only read the
    controller: on two controllers with the same configuration, market
    data, snapshot and time, [determine_executor_actions] returns the same
    list. *)
Theorem active_level_not_created (self : MarketMakingControllerBase)
    (executor : ExecutorInfo.t) (level_id : string) :
  (forall not_active_levels,
      incl (filter_not_active_levels self not_active_levels) not_active_levels) ->
  In executor (executors_info self) ->
  ExecutorInfo.is_active executor = true ->
  dict_getitem (ExecutorInfo.custom_info executor) "level_id" = Ok level_id ->
  (forall created, create_actions_proposal self = Ok created ->
     exists levels,
       levels_to_execute self = Ok levels
       /\ ~ In level_id levels
       /\ Forall2 (fun level a => create_action self level = Ok a) levels created)
  /\ (forall other,
        config other = config self ->
        processed_data other = processed_data self ->
        executors_info other = executors_info self ->
        time_time other = time_time self ->
        determine_executor_actions other = determine_executor_actions self).
Proof.
  intros Hhook Hin Hact Hbound. split.
  - intros created. unfold create_actions_proposal.
    destruct (levels_to_execute self) as [levels|] eqn:El; [|discriminate].
    cbn [bind]. intros Hc. exists levels. repeat split.
    + eapply bound_level_not_to_execute; eauto.
    + now apply mapM_ok_Forall2.
  - intros [c p e t] Hc Hp He Ht. destruct self as [c' p' e' t'].
    simpl in Hc, Hp, He, Ht. now subst.
Qed.

End CreatePass.

(** A snapshot with one executor, active and bound to [buy_0]. *)
Lemma active_level_not_created_witness :
  let executor :=
    ExecutorInfo.mk "executor-1" BUY ACTIVE true false 0 0 [("level_id", "buy_0")] in
  let self := mkController example_config (mkProcessed (Z2Qc 100) 1) [executor] 0 in
  (forall created,
      create_actions_proposal (strategy := recording_strategy) self = Ok created ->
      exists levels,
        levels_to_execute (strategy := recording_strategy) self = Ok levels
        /\ ~ In "buy_0" levels
        /\ Forall2 (fun level a => create_action (strategy := recording_strategy) self level = Ok a)
             levels created)
  /\ (forall other,
        config other = config self ->
        processed_data other = processed_data self ->
        executors_info other = executors_info self ->
        time_time other = time_time self ->
        determine_executor_actions (strategy := recording_strategy) other
        = determine_executor_actions (strategy := recording_strategy) self).
Proof.
  intros executor self.
  apply (active_level_not_created (strategy := recording_strategy) self executor "buy_0").
  - intros levels. apply incl_refl.
  - left. reflexivity.
  - reflexivity.
  - reflexivity.
Defined.

Example bound_level_scenario :
  levels_to_execute (strategy := recording_strategy)
    (mkController example_config (mkProcessed (Z2Qc 100) 1)
       [ExecutorInfo.mk "executor-1" BUY ACTIVE true false 0 0 [("level_id", "buy_0")]] 0)
  = Ok ["buy_1"; "sell_0"; "sell_1"].
Proof. reflexivity. Qed.

(** ** Sums and fractions *)

Lemma fold_left_Qcplus (l : list Qc) (a : Qc) : fold_left Qcplus l a = a + py_sum l.
Proof.
  unfold py_sum. revert a. induction l as [|x l IH]; intros a; simpl.
  - ring.
  - rewrite (IH (a + x)), (IH (0 + x)). ring.
Qed.

Lemma py_sum_cons (x : Qc) (l : list Qc) : py_sum (x :: l) = x + py_sum l.
Proof. unfold py_sum at 1. simpl. rewrite fold_left_Qcplus. ring. Qed.

Lemma normalized_of_unit_sum (l : list Qc) : py_sum l = 1 -> normalized l = l.
Proof.
  intros H. unfold normalized. rewrite H.
  rewrite <- (map_id l) at 2. apply map_ext. intros a. unfold Qcdiv.
  replace (/ 1) with 1 by (apply Qc_eq_this; reflexivity). ring.
Qed.

Lemma normalized_length (l : list Qc) : List.length (normalized l) = List.length l.
Proof. apply length_map. Qed.

Lemma Z2Qc_plus (a b : Z) : Z2Qc (a + b) = Z2Qc a + Z2Qc b.
Proof.
  apply Qc_is_canon. unfold Z2Qc, Qcplus, Q2Qc. cbn [this].
  rewrite !Qred_correct, inject_Z_plus. reflexivity.
Qed.

Lemma Z2Qc_nonzero (n : Z) : n <> 0%Z -> Z2Qc n <> 0.
Proof.
  intros Hn H. apply (f_equal this) in H. unfold Z2Qc, Q2Qc in H. cbn [this] in H.
  assert (Hq : (inject_Z n == 0)%Q) by (rewrite <- (Qred_correct (inject_Z n)), H; reflexivity).
  unfold Qeq in Hq. simpl in Hq. lia.
Qed.

Lemma py_sum_ones {A} (l : list A) :
  py_sum (map (fun _ => 1) l) = Z2Qc (Z.of_nat (List.length l)).
Proof.
  induction l as [|x l IH].
  - apply Qc_eq_this; reflexivity.
  - cbn [map List.length]. rewrite py_sum_cons, IH, Nat2Z.inj_succ, <- Z.add_1_l, Z2Qc_plus.
    f_equal.
Qed.

Lemma py_sum_ones_nonzero {A} (l : list A) : l <> [] -> py_sum (map (fun _ => 1) l) <> 0.
Proof.
  intros H. rewrite py_sum_ones. apply Z2Qc_nonzero. destruct l; [congruence | simpl; lia].
Qed.

Lemma normalized_ones {A} (l : list A) :
  normalized (map (fun _ => 1) l)
  = repeat (1 / Z2Qc (Z.of_nat (List.length l))) (List.length l).
Proof.
  unfold normalized. rewrite py_sum_ones, map_map.
  generalize (1 / Z2Qc (Z.of_nat (List.length l))). intros c.
  induction l as [|x l IH]; simpl; [reflexivity | now rewrite IH].
Qed.

(** The comprehension [[amt / total for amt in l]]. *)
Lemma mapM_truediv (l : list Qc) (total : Qc) :
  mapM (fun amt => py_truediv amt total) l
  = match l with
    | [] => Ok []
    | _ => if Qc_eq_dec total 0 then Raise ZeroDivisionError
           else Ok (map (fun amt => amt / total) l)
    end.
Proof.
  destruct l as [|x l]; [reflexivity|].
  destruct (Qc_eq_dec total 0) as [Hz|Hz].
  - simpl. unfold py_truediv. now destruct (Qc_eq_dec total 0).
  - generalize (x :: l). clear x l. intros l.
    induction l as [|x l IH]; [reflexivity|].
    simpl. rewrite IH. unfold py_truediv. now destruct (Qc_eq_dec total 0).
Qed.

Lemma zero_sum_ones {A} (l : list A) : zero_sum (map (fun _ => 1) l) = false.
Proof.
  destruct l as [|x l]; [reflexivity|].
  unfold zero_sum. cbn [map].
  destruct (Qc_eq_dec _ 0) as [Hz|]; [|reflexivity].
  now apply (py_sum_ones_nonzero (x :: l)) in Hz.
Qed.

(** ** Normalization, construction and update *)

Lemma normalize_amounts_full (bs ba ss sa : list Qc) :
  normalize_amounts (mkValues (Some bs) (Some ba) (Some ss) (Some sa))
  = if zero_sum ba then
      (mkValues (Some bs) (Some ba) (Some ss) (Some sa), Raise ZeroDivisionError)
    else if zero_sum sa then
      (mkValues (Some bs) (Some (normalized ba)) (Some ss) (Some sa), Raise ZeroDivisionError)
    else (mkValues (Some bs) (Some (normalized ba)) (Some ss) (Some (normalized sa)), Ok tt).
Proof.
  unfold normalize_amounts, mbind, lift.
  change (values_getitem (mkValues (Some bs) (Some ba) (Some ss) (Some sa)) "buy_amounts_pct")
    with (Ok ba).
  change (values_getitem (mkValues (Some bs) (Some ba) (Some ss) (Some sa)) "sell_amounts_pct")
    with (Ok sa).
  cbv beta iota zeta. rewrite !mapM_truediv. unfold zero_sum, normalized.
  destruct ba as [|b ba]; [|destruct (Qc_eq_dec (py_sum (b :: ba)) 0)];
  (destruct sa as [|s sa]; [|destruct (Qc_eq_dec (py_sum (s :: sa)) 0)]); reflexivity.
Qed.

Lemma renormalize_eq (cfg : MarketMakingControllerConfigBase) :
  renormalize cfg
  = if zero_sum (buy_amounts_pct cfg) then (cfg, Raise ZeroDivisionError)
    else if zero_sum (sell_amounts_pct cfg) then
      (set_side_amounts_pct BUY (normalized (buy_amounts_pct cfg)) cfg,
       Raise ZeroDivisionError)
    else (set_side_amounts_pct SELL (normalized (sell_amounts_pct cfg))
            (set_side_amounts_pct BUY (normalized (buy_amounts_pct cfg)) cfg), Ok tt).
Proof.
  unfold renormalize, dict_of. rewrite normalize_amounts_full.
  destruct cfg; cbn [buy_amounts_pct sell_amounts_pct].
  destruct (zero_sum _); [reflexivity|]. destruct (zero_sum _); reflexivity.
Qed.

Lemma setattr_spreads (trade_type : TradeType) (l : list Qc)
    (cfg : MarketMakingControllerConfigBase) :
  setattr (if TradeType_eqb trade_type BUY then "buy_spreads" else "sell_spreads") l cfg
  = (set_side_spreads trade_type l cfg, Ok tt).
Proof. now destruct trade_type. Qed.

Lemma setattr_amounts_pct (trade_type : TradeType) (l : list Qc)
    (cfg : MarketMakingControllerConfigBase) :
  setattr (if TradeType_eqb trade_type BUY then "buy_amounts_pct" else "sell_amounts_pct")
    l cfg
  = (set_side_amounts_pct trade_type l cfg, Ok tt).
Proof. now destruct trade_type. Qed.

Lemma getattr_spreads (trade_type : TradeType) (cfg : MarketMakingControllerConfigBase) :
  getattr (if TradeType_eqb trade_type BUY then "buy_spreads" else "sell_spreads") cfg
  = (cfg, Ok (side_spreads trade_type cfg)).
Proof. now destruct trade_type. Qed.

Lemma side_spreads_set (trade_type : TradeType) (l : list Qc)
    (cfg : MarketMakingControllerConfigBase) :
  side_spreads trade_type (set_side_spreads trade_type l cfg) = l.
Proof. now destruct trade_type. Qed.

Section ConfigFacts.

Context {float_parser : FloatParser}.


(** When the four field validators return, the constructor raises
    [ZeroDivisionError] or returns the object with normalized amounts. *)
Lemma build_config_validated (raw : RawConfig) (bs ba ss sa : list Qc) :
  validated raw bs ba ss sa ->
  build_config raw
  = if zero_sum ba || zero_sum sa then Raise ZeroDivisionError
    else Ok (built raw bs (normalized ba) ss (normalized sa)).
Proof.
  intros (Hbs & Hba & Hss & Hsa). unfold build_config.
  rewrite Hbs. cbn [validate_field bind fst snd].
  change (values_setitem empty_values "buy_spreads" bs) with (mkValues (Some bs) None None None).
  rewrite Hba. cbn [validate_field bind fst snd].
  rewrite Hss. cbn [validate_field bind fst snd].
  change (values_setitem _ "sell_spreads" ss) with (mkValues (Some bs) (Some ba) (Some ss) None).
  rewrite Hsa. cbn [validate_field bind fst snd].
  change (values_setitem _ "sell_amounts_pct" sa)
    with (mkValues (Some bs) (Some ba) (Some ss) (Some sa)).
  rewrite normalize_amounts_full.
  destruct (zero_sum ba); [reflexivity|]. destruct (zero_sum sa); reflexivity.
Qed.


Lemma amounts_validated (v : option RawAmounts) (values : Values) (name : string)
    (spreads ba : list Qc) :
  values_getitem values (py_replace name "amounts_pct" "spreads") = Ok spreads ->
  parse_and_validate_amounts v values (ModelField name) = Ok ba ->
  List.length ba = List.length spreads
  /\ (v = None -> ba = map (fun _ => 1) spreads).
Proof.
  intros Hs. unfold parse_and_validate_amounts.
  destruct v as [[l|s]|]; cbn [bind field_name].
  - rewrite Hs. cbn [bind].
    destruct (Nat.eqb (List.length l) (List.length spreads)) eqn:E; [|discriminate].
    cbn [negb]. intros [= <-]. apply Nat.eqb_eq in E.
    split; [now rewrite length_map | discriminate].
  - destruct (mapM _ _) as [l|]; [|discriminate]. cbn [bind field_name].
    rewrite Hs. cbn [bind].
    destruct (Nat.eqb (List.length l) (List.length spreads)) eqn:E; [|discriminate].
    cbn [negb]. intros [= <-]. apply Nat.eqb_eq in E.
    split; [now rewrite length_map | discriminate].
  - rewrite Hs. cbn [bind]. intros [= <-]. split; [apply length_map | reflexivity].
Qed.

(** Called with a string in the place of the field, as [update_parameters]
    calls it, the validator of the amounts does not return. *)
Lemma amounts_with_field_string (raw : RawAmounts) (values : Values) (s : string) :
  exists e, parse_and_validate_amounts (Some raw) values (FieldStr s) = Raise e.
Proof.
  unfold parse_and_validate_amounts. destruct raw as [l|str]; cbn [bind field_name].
  - now exists AttributeError.
  - destruct (mapM _ _) as [l|e]; cbn [bind field_name]; eauto.
Qed.

(** [update_parameters], statement by statement. *)
Lemma update_parameters_eq (trade_type : TradeType) (new_spreads : RawSpreads)
    (new_amounts_pct : option RawAmounts) (cfg : MarketMakingControllerConfigBase) :
  update_parameters trade_type new_spreads new_amounts_pct cfg
  = match parse_spreads new_spreads with
    | Raise e => (cfg, Raise e)
    | Ok spreads =>
        let cfg1 := set_side_spreads trade_type spreads cfg in
        match new_amounts_pct with
        | Some raw =>
            match parse_and_validate_amounts (Some raw) (dict_of cfg1)
                    (FieldStr (if TradeType_eqb trade_type BUY
                               then "buy_amounts_pct" else "sell_amounts_pct")) with
            | Raise e => (cfg1, Raise e)
            | Ok amounts => renormalize (set_side_amounts_pct trade_type amounts cfg1)
            end
        | None =>
            renormalize (set_side_amounts_pct trade_type (map (fun _ => 1) spreads) cfg1)
        end
    end.
Proof.
  unfold update_parameters, mbind, lift.
  destruct (parse_spreads new_spreads) as [spreads|e]; [|reflexivity].
  rewrite setattr_spreads. cbv zeta.
  destruct new_amounts_pct as [raw|].
  - unfold self_.
    destruct (parse_and_validate_amounts (Some raw) _ _) as [amounts|e]; [|reflexivity].
    now rewrite setattr_amounts_pct.
  - now rewrite getattr_spreads, setattr_amounts_pct, side_spreads_set.
Qed.

(** A call of [update_parameters] that returns. *)
Lemma update_parameters_ok (trade_type : TradeType) (new_spreads : RawSpreads)
    (new_amounts_pct : option RawAmounts) (cfg cfg' : MarketMakingControllerConfigBase) :
  update_parameters trade_type new_spreads new_amounts_pct cfg = (cfg', Ok tt) ->
  exists spreads,
    let cfg2 := set_side_amounts_pct trade_type (map (fun _ => 1) spreads)
                  (set_side_spreads trade_type spreads cfg) in
    parse_spreads new_spreads = Ok spreads
    /\ new_amounts_pct = None
    /\ zero_sum (buy_amounts_pct cfg2) = false
    /\ zero_sum (sell_amounts_pct cfg2) = false
    /\ cfg' = set_side_amounts_pct SELL (normalized (sell_amounts_pct cfg2))
                (set_side_amounts_pct BUY (normalized (buy_amounts_pct cfg2)) cfg2).
Proof.
  rewrite update_parameters_eq.
  destruct (parse_spreads new_spreads) as [spreads|]; [|discriminate]. cbv zeta.
  destruct new_amounts_pct as [raw|].
  - destruct (amounts_with_field_string raw
                (dict_of (set_side_spreads trade_type spreads cfg))
                (if TradeType_eqb trade_type BUY then "buy_amounts_pct"
                 else "sell_amounts_pct")) as [e He].
    rewrite He. discriminate.
  - rewrite renormalize_eq.
    destruct (zero_sum (buy_amounts_pct _)) eqn:Zb; [discriminate|].
    destruct (zero_sum (sell_amounts_pct _)) eqn:Zs; [discriminate|].
    intros [= <-]. exists spreads. now repeat split.
Qed.

End ConfigFacts.





Section Weights.

Context {float_parser : FloatParser}.


End Weights.

Section ConfigClaims.

Context {float_parser : FloatParser}.



(** C4, amended. Normalization has no guard of its own. On validated
    fields, [normalize_amounts] raises [ZeroDivisionError] exactly when a
    side has weights, at least one, that sum to zero; the constructor then
    raises that [ZeroDivisionError] and returns no configuration, and
    otherwise returns the configuration with normalized fractions; the
    normalization that ends [update_parameters] raises it likewise. A side
    without weights is not such a side: it normalizes to the empty list. *)
Theorem zero_sum_raises_zero_division (raw : RawConfig) (bs ba ss sa : list Qc) :
  validated raw bs ba ss sa ->
  snd (normalize_amounts (mkValues (Some bs) (Some ba) (Some ss) (Some sa)))
  = (if zero_sum ba || zero_sum sa then Raise ZeroDivisionError else Ok tt)
  /\ build_config raw
     = (if zero_sum ba || zero_sum sa then Raise ZeroDivisionError
        else Ok (built raw bs (normalized ba) ss (normalized sa)))
  /\ (forall cfg : MarketMakingControllerConfigBase,
        snd (renormalize cfg)
        = if zero_sum (buy_amounts_pct cfg) || zero_sum (sell_amounts_pct cfg)
          then Raise ZeroDivisionError else Ok tt)
  /\ zero_sum [] = false
  /\ normalized [] = [].
Proof.
  intros Hv. repeat split.
  - rewrite normalize_amounts_full.
    destruct (zero_sum ba); [reflexivity|]. now destruct (zero_sum sa).
  - now apply build_config_validated.
  - intros cfg. rewrite renormalize_eq.
    destruct (zero_sum (buy_amounts_pct cfg)); [reflexivity|].
    now destruct (zero_sum (sell_amounts_pct cfg)).
Qed.

(** C5, amended. [update_parameters] does not undo what it has assigned.
    When it raises while parsing the new spreads, the configuration is as
    it was; when it raises later, the spreads of the updated side are
    already the new ones, while the spreads of the other side and the
    scalar fields are as they were. *)
Theorem update_parameters_failure (trade_type : TradeType) (new_spreads : RawSpreads)
    (new_amounts_pct : option RawAmounts) (cfg cfg' : MarketMakingControllerConfigBase)
    (e : PyExn) :
  update_parameters trade_type new_spreads new_amounts_pct cfg = (cfg', Raise e) ->
  (parse_spreads new_spreads = Raise e /\ cfg' = cfg)
  \/ (exists spreads,
        parse_spreads new_spreads = Ok spreads
        /\ side_spreads trade_type cfg' = spreads
        /\ side_spreads (other_side trade_type) cfg'
           = side_spreads (other_side trade_type) cfg
        /\ scalars cfg' = scalars cfg).
Proof.
  rewrite update_parameters_eq.
  destruct (parse_spreads new_spreads) as [spreads|e0].
  - intros H. right. exists spreads. split; [reflexivity|]. revert H. cbv zeta.
    destruct new_amounts_pct as [raw|].
    + destruct (amounts_with_field_string raw
                  (dict_of (set_side_spreads trade_type spreads cfg))
                  (if TradeType_eqb trade_type BUY then "buy_amounts_pct"
                   else "sell_amounts_pct")) as [e1 He].
      rewrite He. intros [= <- _]. now destruct trade_type.
    + rewrite renormalize_eq.
      destruct (zero_sum (buy_amounts_pct _)).
      * intros [= <- _]. now destruct trade_type.
      * destruct (zero_sum (sell_amounts_pct _)); [|discriminate].
        intros [= <- _]. now destruct trade_type.
  - intros [= <- <-]. now left.
Qed.

(** C6, amended. A call of [update_parameters] that returns leaves the
    spreads of the other side and all the scalar fields as they were,
    and divides each fraction of the other side by the sum of the
    fractions of that side; the fractions of the other side are as they
    were when that sum is exactly 1. *)
Theorem update_redivides_other_side (trade_type : TradeType) (new_spreads : RawSpreads)
    (new_amounts_pct : option RawAmounts) (cfg cfg' : MarketMakingControllerConfigBase) :
  update_parameters trade_type new_spreads new_amounts_pct cfg = (cfg', Ok tt) ->
  side_spreads (other_side trade_type) cfg' = side_spreads (other_side trade_type) cfg
  /\ side_amounts_pct (other_side trade_type) cfg'
     = map (fun amt => amt / py_sum (side_amounts_pct (other_side trade_type) cfg))
         (side_amounts_pct (other_side trade_type) cfg)
  /\ (py_sum (side_amounts_pct (other_side trade_type) cfg) = 1 ->
      side_amounts_pct (other_side trade_type) cfg'
      = side_amounts_pct (other_side trade_type) cfg)
  /\ total_amount_quote cfg' = total_amount_quote cfg
  /\ executor_refresh_time cfg' = executor_refresh_time cfg
  /\ cooldown_time cfg' = cooldown_time cfg
  /\ leverage cfg' = leverage cfg
  /\ position_mode cfg' = position_mode cfg
  /\ closed_executors_buffer cfg' = closed_executors_buffer cfg
  /\ scalars cfg' = scalars cfg.
Proof.
  intros Hu.
  apply update_parameters_ok in Hu as (spreads & _ & _ & _ & _ & ->).
  destruct trade_type; cbn; repeat split; intros H; now apply normalized_of_unit_sum.
Qed.

End ConfigClaims.

(** C4, as stated: with the weights [0, 0] on the buy side the constructor
    raises [ZeroDivisionError], which is not [ValidationError]; without a
    buy level the weights of that side sum to zero and the constructor
    returns a configuration. *)
Lemma zero_sum_is_not_validation_error :
  build_config (float_parser := decimal_float) zero_weights_raw = Raise ZeroDivisionError
  /\ build_config (float_parser := decimal_float) zero_weights_raw <> Raise ValidationError
  /\ build_config (float_parser := decimal_float) no_buy_level_raw = Ok no_buy_level_config
  /\ py_sum (buy_amounts_pct no_buy_level_config) = 0.
Proof.
  assert (H : build_config (float_parser := decimal_float) zero_weights_raw
              = Raise ZeroDivisionError) by reflexivity.
  split; [exact H|]. split; [rewrite H; discriminate|].
  split; [qc_compute | reflexivity].
Qed.

Lemma zero_sum_raises_zero_division_witness :
  build_config (float_parser := decimal_float) zero_weights_raw = Raise ZeroDivisionError.
Proof.
  apply (zero_sum_raises_zero_division (float_parser := decimal_float) zero_weights_raw
           [ratio 1 100; ratio 2 100] [Z2Qc 0; Z2Qc 0]
           [ratio 1 100; ratio 2 100] [1; 1]).
  repeat split; reflexivity.
Defined.


(** C5, as stated: a call that fails on the amounts, here on a string that
    is not a list of integers, has already replaced the buy spreads and
    left the buy fractions of the two former levels. *)
Lemma update_parameters_not_atomic :
  let cfg' := set_side_spreads BUY [ratio 5 100] example_config in
  update_parameters (float_parser := decimal_float) BUY (SpreadsList [ratio 5 100])
    (Some (AmountsStr "abc")) example_config = (cfg', Raise ValueError)
  /\ cfg' <> example_config
  /\ buy_spreads cfg' = [ratio 5 100]
  /\ buy_amounts_pct cfg' = [ratio 1 2; ratio 1 2].
Proof.
  cbv zeta. repeat split.
  intros H. apply (f_equal (fun c => List.length (buy_spreads c))) in H. discriminate H.
Qed.

Lemma update_parameters_failure_witness :
  (parse_spreads (float_parser := decimal_float) (SpreadsList [ratio 5 100]) = Raise ValueError
   /\ set_side_spreads BUY [ratio 5 100] example_config = example_config)
  \/ (exists spreads,
        parse_spreads (float_parser := decimal_float) (SpreadsList [ratio 5 100]) = Ok spreads
        /\ side_spreads BUY (set_side_spreads BUY [ratio 5 100] example_config) = spreads
        /\ side_spreads SELL (set_side_spreads BUY [ratio 5 100] example_config)
           = side_spreads SELL example_config
        /\ scalars (set_side_spreads BUY [ratio 5 100] example_config)
           = scalars example_config).
Proof.
  apply (update_parameters_failure (float_parser := decimal_float) BUY
           (SpreadsList [ratio 5 100]) (Some (AmountsStr "abc")) example_config).
  reflexivity.
Defined.

(** C6, as stated. In binary64, six levels of equal weight get the
    fraction nearest to [1/6] each; these six numbers add up, from the
    left, to the number next below 1, and the normalization that ends an
    update of the opposite side divides each by that sum and stores the
    number next above the fraction it was. *)
Lemma other_side_fractions_move :
  let fractions := normalize_ints_binary64 [1; 1; 1; 1; 1; 1]%Z in
  PrimFloat.ltb (py_sum_binary64 fractions) (float_of_int 1) = true
  /\ PrimFloat.ltb (hd (float_of_int 0) fractions)
       (hd (float_of_int 0) (normalize_floats_binary64 fractions)) = true
  /\ normalize_floats_binary64 fractions <> fractions.
Proof.
  intros fractions.
  assert (H : PrimFloat.ltb (hd (float_of_int 0) fractions)
                (hd (float_of_int 0) (normalize_floats_binary64 fractions)) = true)
    by (vm_compute; reflexivity).
  split; [vm_compute; reflexivity|]. split; [exact H|].
  intros E. rewrite E in H. vm_compute in H. discriminate H.
Qed.

Lemma update_redivides_other_side_witness :
  let cfg' :=
    fst (update_parameters (float_parser := decimal_float) SELL
           (SpreadsStr "0.03, 0.04, 0.05") None example_config) in
  side_spreads BUY cfg' = side_spreads BUY example_config
  /\ side_amounts_pct BUY cfg'
     = map (fun amt => amt / py_sum (side_amounts_pct BUY example_config))
         (side_amounts_pct BUY example_config)
  /\ (py_sum (side_amounts_pct BUY example_config) = 1 ->
      side_amounts_pct BUY cfg' = side_amounts_pct BUY example_config)
  /\ total_amount_quote cfg' = total_amount_quote example_config
  /\ executor_refresh_time cfg' = executor_refresh_time example_config
  /\ cooldown_time cfg' = cooldown_time example_config
  /\ leverage cfg' = leverage example_config
  /\ position_mode cfg' = position_mode example_config
  /\ closed_executors_buffer cfg' = closed_executors_buffer example_config
  /\ scalars cfg' = scalars example_config.
Proof.
  intros cfg'.
  apply (update_redivides_other_side (float_parser := decimal_float) SELL
           (SpreadsStr "0.03, 0.04, 0.05") None example_config cfg').
  vm_compute. reflexivity.
Defined.

(** ** Worked cases *)

Example level_id_examples :
  get_level_id_from_side BUY 3 = "buy_3"
  /\ get_level_from_level_id "sell_12" = Ok 12%Z
  /\ get_trade_type_from_level_id "sell_12" = SELL
  /\ get_level_from_level_id "buy" = Raise IndexError
  /\ get_level_from_level_id "buy_x" = Raise ValueError.
Proof. repeat split; reflexivity. Qed.

Example py_int_examples :
  py_int " 42 " = Ok 42%Z /\ py_int "-7" = Ok (-7)%Z /\ py_int "1_000" = Ok 1000%Z
  /\ py_int "" = Raise ValueError /\ py_int "1__0" = Raise ValueError
  /\ py_int "abc" = Raise ValueError.
Proof. repeat split; reflexivity. Qed.

(** In the scenario the base class itself, whose [get_executor_config] is
    not implemented, has no action list to return. *)
Example base_class_not_implemented :
  determine_executor_actions (strategy := base_strategy unit) example_controller
  = Raise NotImplementedError.
Proof. reflexivity. Qed.

(** Seven executors, the first six terminated: the buffer pass stops the
    sixth and the seventh, the one that is still active included. *)
Example buffer_pass_example :
  let executor (name : string) (status : SmartComponentStatus) (closed : Z) :=
    ExecutorInfo.mk name BUY status false false 0 (Z2Qc closed) [] in
  store_actions_proposal (EC := unit)
    (mkController example_config (mkProcessed (Z2Qc 100) 1)
       [executor "e0" TERMINATED 10%Z; executor "e1" TERMINATED 60%Z;
        executor "e2" TERMINATED 20%Z; executor "e3" TERMINATED 50%Z;
        executor "e4" TERMINATED 30%Z; executor "e5" TERMINATED 40%Z;
        executor "e6" ACTIVE 0%Z] 0)
  = [StopExecutorAction "e5"; StopExecutorAction "e6"].
Proof. reflexivity. Qed.

(** An executor that is active, not trading and older than the refresh
    time is stopped, and its level is not created in the same cycle. *)
Example refresh_scenario :
  determine_executor_actions (strategy := recording_strategy)
    (mkController example_config (mkProcessed (Z2Qc 100) 1)
       [ExecutorInfo.mk "executor-1" BUY ACTIVE true false 0 0 [("level_id", "buy_0")]]
       (Z2Qc 301))
  = Ok [CreateExecutorAction "controller" ("buy_1", Z2Qc 102, ratio 50 102);
        CreateExecutorAction "controller" ("sell_0", Z2Qc 101, ratio 50 101);
        CreateExecutorAction "controller" ("sell_1", Z2Qc 102, ratio 50 102);
        StopExecutorAction "executor-1"].
Proof. qc_compute. Qed.

(** * Further properties *)

(** ** Level identifiers of the ladder *)

Lemma get_level_id_from_side_inj (side1 side2 : TradeType) (level1 level2 : Z) :
  get_level_id_from_side side1 level1 = get_level_id_from_side side2 level2 ->
  side1 = side2 /\ level1 = level2.
Proof.
  intros H. split.
  - rewrite <- (trade_type_from_level_id_of_side side1 level1),
      <- (trade_type_from_level_id_of_side side2 level2). now rewrite H.
  - pose proof (level_from_level_id_of_side side1 level1) as H1.
    rewrite H, level_from_level_id_of_side in H1. now injection H1.
Qed.

(** X1. Two level ids built by [get_level_id_from_side] are equal exactly
    when they are built from the same side and the same level: no two
    levels of the ladder share an id. *)
Theorem level_id_injective (side1 side2 : TradeType) (level1 level2 : Z) :
  get_level_id_from_side side1 level1 = get_level_id_from_side side2 level2
  <-> side1 = side2 /\ level1 = level2.
Proof.
  split.
  - apply get_level_id_from_side_inj.
  - intros [-> ->]. reflexivity.
Qed.

Lemma side_level_ids_NoDup (side : TradeType) (cfg : MarketMakingControllerConfigBase) :
  NoDup (side_level_ids side cfg).
Proof.
  unfold side_level_ids. apply NoDup_map_NoDup_ForallPairs; [|apply seq_NoDup].
  intros a b _ _ H. apply get_level_id_from_side_inj in H. lia.
Qed.

Lemma in_side_level_ids (side : TradeType) (cfg : MarketMakingControllerConfigBase)
    (level_id : string) :
  In level_id (side_level_ids side cfg)
  <-> exists level : nat,
        (level < List.length (side_spreads side cfg))%nat
        /\ level_id = get_level_id_from_side side (Z.of_nat level).
Proof.
  unfold side_level_ids. rewrite in_map_iff. split.
  - intros (level & <- & Hin). apply in_seq in Hin. exists level. split; [lia | reflexivity].
  - intros (level & Hlt & ->). exists level. split; [reflexivity|]. apply in_seq. lia.
Qed.

Lemma get_not_active_levels_ids_eq (self : MarketMakingControllerBase)
    (active_levels_ids : list string) :
  get_not_active_levels_ids self active_levels_ids
  = (List.filter (fun level_id => negb (py_in level_id active_levels_ids))
       (side_level_ids BUY (config self))
     ++ List.filter (fun level_id => negb (py_in level_id active_levels_ids))
          (side_level_ids SELL (config self)))%list.
Proof. reflexivity. Qed.

Lemma py_in_In (x : string) (l : list string) : py_in x l = true <-> In x l.
Proof.
  split; [|apply py_in_true]. unfold py_in. intros H.
  apply existsb_exists in H as (y & Hy & E). apply String.eqb_eq in E. now subst.
Qed.

(** X2. The list that [get_not_active_levels_ids] returns holds no level
    id twice, whatever the configuration and the active ids. *)
Theorem not_active_levels_ids_NoDup (self : MarketMakingControllerBase)
    (active_levels_ids : list string) :
  NoDup (get_not_active_levels_ids self active_levels_ids).
Proof.
  rewrite get_not_active_levels_ids_eq. apply NoDup_app.
  - apply NoDup_filter, side_level_ids_NoDup.
  - apply NoDup_filter, side_level_ids_NoDup.
  - intros a Hb Hs. apply filter_In in Hb as [Hb _]. apply filter_In in Hs as [Hs _].
    apply in_side_level_ids in Hb as (l1 & _ & ->).
    apply in_side_level_ids in Hs as (l2 & _ & Hs).
    apply get_level_id_from_side_inj in Hs as [Hs _]. discriminate Hs.
Qed.

(** X3. A level id is in the list that [get_not_active_levels_ids] returns
    exactly when it is the id of a level of the buy or of the sell ladder
    (a level below the number of spreads of its side) and is not among the
    active ids. *)
Theorem not_active_levels_ids_spec (self : MarketMakingControllerBase)
    (active_levels_ids : list string) (level_id : string) :
  In level_id (get_not_active_levels_ids self active_levels_ids)
  <-> (exists (side : TradeType) (level : nat),
          (level < List.length (side_spreads side (config self)))%nat
          /\ level_id = get_level_id_from_side side (Z.of_nat level))
      /\ ~ In level_id active_levels_ids.
Proof.
  rewrite get_not_active_levels_ids_eq, in_app_iff, !filter_In, !in_side_level_ids.
  rewrite negb_true_iff, <- not_true_iff_false, py_in_In.
  split.
  - intros [[(level & Hl & E) Hn] | [(level & Hl & E) Hn]]; (split; [|exact Hn]).
    + now exists BUY, level.
    + now exists SELL, level.
  - intros [(side & level & Hl & E) Hn]. destruct side; [left | right];
      (split; [now exists level | exact Hn]).
Qed.


(** ** The price and the amount of a level *)

Lemma py_getitem_nat {A} (l : list A) (n : nat) (x : A) :
  nth_error l n = Some x -> py_getitem l (Z.of_nat n) = Ok x.
Proof.
  intros H. unfold py_getitem.
  assert (Hn : (n < List.length l)%nat) by (apply nth_error_Some; congruence).
  destruct (Z.ltb_spec (Z.of_nat n) 0); [lia|].
  destruct (Z.ltb_spec (Z.of_nat n) 0); [lia|].
  destruct (Z.leb_spec (Z.of_nat (List.length l)) (Z.of_nat n)); [lia|].
  cbn [orb]. now rewrite Nat2Z.id, H.
Qed.

Lemma py_getitem_beyond {A} (l : list A) (n : nat) :
  (List.length l <= n)%nat -> py_getitem l (Z.of_nat n) = Raise IndexError.
Proof.
  intros H. unfold py_getitem.
  destruct (Z.ltb_spec (Z.of_nat n) 0); [lia|].
  destruct (Z.ltb_spec (Z.of_nat n) 0); [lia|].
  destruct (Z.leb_spec (Z.of_nat (List.length l)) (Z.of_nat n)); [reflexivity | lia].
Qed.

Lemma py_getitem_negative {A} (l : list A) (k : nat) :
  (1 <= k <= List.length l)%nat ->
  py_getitem l (- Z.of_nat k) = py_getitem l (Z.of_nat (List.length l - k)).
Proof.
  intros H. unfold py_getitem.
  destruct (Z.ltb_spec (- Z.of_nat k) 0); [|lia].
  destruct (Z.ltb_spec (Z.of_nat (List.length l - k)) 0); [lia|].
  replace (- Z.of_nat k + Z.of_nat (List.length l))%Z
    with (Z.of_nat (List.length l - k)) by lia.
  reflexivity.
Qed.

Lemma py_getitem_map {A B} (f : A -> B) (l : list A) (i : Z) :
  py_getitem (map f l) i
  = match py_getitem l i with Ok x => Ok (f x) | Raise e => Raise e end.
Proof.
  unfold py_getitem. rewrite length_map.
  destruct (_ || _); [reflexivity|].
  rewrite nth_error_map. now destruct (nth_error l _).
Qed.

(** On a level id that [get_level_id_from_side] built, the steps of
    [get_price_and_amount] that read the id go through, and the steps that
    index, multiply and divide are left. *)
Lemma get_price_and_amount_generated (self : MarketMakingControllerBase)
    (side : TradeType) (level : Z) :
  get_price_and_amount self (get_level_id_from_side side level)
  = (spread <- py_getitem (side_spreads side (config self)) level ;;
     let order_price :=
       reference_price (processed_data self)
       * (1 + 1 * (spread * spread_multiplier (processed_data self))) in
     fraction <- py_getitem (side_amounts_pct side (config self)) level ;;
     amount <- py_truediv (fraction * total_amount_quote (config self)) order_price ;;
     Ok (order_price, amount)).
Proof.
  unfold get_price_and_amount. rewrite level_id_split.
  replace (TradeType_getitem (py_upper (py_lower (TradeType_name side)))) with (Ok side)
    by now destruct side.
  cbn [bind]. rewrite get_spreads_and_amounts_in_quote_eq. cbn [bind].
  rewrite py_int_py_str. cbn [bind py_eq].
  change (match side with BUY => buy_spreads (config self)
                     | SELL => sell_spreads (config self) end)
    with (side_spreads side (config self)).
  change (match side with BUY => buy_amounts_pct (config self)
                     | SELL => sell_amounts_pct (config self) end)
    with (side_amounts_pct side (config self)).
  destruct (py_getitem (side_spreads side (config self)) level) as [spread|e];
    [|reflexivity].
  cbn [bind]. rewrite py_getitem_map.
  now destruct (py_getitem (side_amounts_pct side (config self)) level).
Qed.

Lemma Qc_one_mult (x : Qc) : 1 * x = x.
Proof. ring. Qed.

(** X4. On the id of a level that has a spread and a fraction,
    [get_price_and_amount] returns, on either side, the reference price
    scaled by one plus the spread times the multiplier, and the level's
    share of [total_amount_quote] divided by that price, provided the
    price is not zero. *)
Theorem price_and_amount_of_level (self : MarketMakingControllerBase)
    (side : TradeType) (level : nat) (spread fraction : Qc) :
  nth_error (side_spreads side (config self)) level = Some spread ->
  nth_error (side_amounts_pct side (config self)) level = Some fraction ->
  reference_price (processed_data self)
  * (1 + spread * spread_multiplier (processed_data self)) <> 0 ->
  get_price_and_amount self (get_level_id_from_side side (Z.of_nat level))
  = Ok (reference_price (processed_data self)
        * (1 + spread * spread_multiplier (processed_data self)),
        fraction * total_amount_quote (config self)
        / (reference_price (processed_data self)
           * (1 + spread * spread_multiplier (processed_data self)))).
Proof.
  intros Hs Hf Hp. rewrite get_price_and_amount_generated.
  rewrite (py_getitem_nat _ _ _ Hs). cbn [bind]. rewrite (py_getitem_nat _ _ _ Hf).
  cbn [bind]. rewrite Qc_one_mult. unfold py_truediv.
  now destruct (Qc_eq_dec _ 0).
Qed.

Lemma price_and_amount_of_level_witness :
  get_price_and_amount example_controller (get_level_id_from_side SELL 1)
  = Ok (Z2Qc 100 * (1 + ratio 2 100 * 1),
        ratio 1 2 * Z2Qc 100 / (Z2Qc 100 * (1 + ratio 2 100 * 1))).
Proof.
  apply (price_and_amount_of_level example_controller SELL 1 (ratio 2 100) (ratio 1 2));
    [reflexivity | reflexivity | discriminate].
Defined.

(** X5. On the id of a level beyond the ladder of its side (a level not
    below the number of spreads) [get_price_and_amount] raises
    [IndexError]. *)
Theorem price_beyond_ladder (self : MarketMakingControllerBase)
    (side : TradeType) (level : nat) :
  (List.length (side_spreads side (config self)) <= level)%nat ->
  get_price_and_amount self (get_level_id_from_side side (Z.of_nat level))
  = Raise IndexError.
Proof.
  intros H. rewrite get_price_and_amount_generated.
  now rewrite (py_getitem_beyond _ _ H).
Qed.

Lemma price_beyond_ladder_witness :
  get_price_and_amount example_controller (get_level_id_from_side BUY 2) = Raise IndexError.
Proof. apply (price_beyond_ladder example_controller BUY 2). simpl. lia. Defined.

(** X6. When a side has fewer fractions than spreads,
    [get_price_and_amount] raises [IndexError] on every level of that side
    that has a spread and no fraction. *)
Theorem price_of_level_without_fraction (self : MarketMakingControllerBase)
    (side : TradeType) (level : nat) :
  (level < List.length (side_spreads side (config self)))%nat ->
  (List.length (side_amounts_pct side (config self)) <= level)%nat ->
  get_price_and_amount self (get_level_id_from_side side (Z.of_nat level))
  = Raise IndexError.
Proof.
  intros Hs Hf. rewrite get_price_and_amount_generated.
  destruct (nth_error (side_spreads side (config self)) level) as [spread|] eqn:E.
  - rewrite (py_getitem_nat _ _ _ E). cbn [bind].
    now rewrite (py_getitem_beyond _ _ Hf).
  - apply nth_error_None in E. lia.
Qed.

(** X7. A negative level counts from the end of the ladder: for [k]
    between 1 and the number of levels of a side that has as many
    fractions as spreads, the id of level [-k] is priced as the level
    [N - k]. *)
Theorem price_of_negative_level (self : MarketMakingControllerBase)
    (side : TradeType) (k : nat) :
  List.length (side_amounts_pct side (config self))
  = List.length (side_spreads side (config self)) ->
  (1 <= k <= List.length (side_spreads side (config self)))%nat ->
  get_price_and_amount self (get_level_id_from_side side (- Z.of_nat k))
  = get_price_and_amount self
      (get_level_id_from_side side
         (Z.of_nat (List.length (side_spreads side (config self)) - k))).
Proof.
  intros Hl Hk. rewrite !get_price_and_amount_generated.
  rewrite (py_getitem_negative (side_spreads side (config self)) k Hk).
  rewrite (py_getitem_negative (side_amounts_pct side (config self)) k) by lia.
  now rewrite Hl.
Qed.

Lemma price_of_negative_level_witness :
  get_price_and_amount example_controller (get_level_id_from_side SELL (- Z.of_nat 1))
  = get_price_and_amount example_controller
      (get_level_id_from_side SELL
         (Z.of_nat (List.length (side_spreads SELL (config example_controller)) - 1))).
Proof.
  apply (price_of_negative_level example_controller SELL 1); [reflexivity | simpl; lia].
Defined.

Lemma price_of_level_without_fraction_witness :
  get_price_and_amount
    (mkController
       (set_side_spreads BUY [ratio 1 100; ratio 2 100; ratio 3 100] example_config)
       (mkProcessed (Z2Qc 100) 1) [] 0)
    (get_level_id_from_side BUY 2)
  = Raise IndexError.
Proof.
  apply (price_of_level_without_fraction
           (mkController
              (set_side_spreads BUY [ratio 1 100; ratio 2 100; ratio 3 100] example_config)
              (mkProcessed (Z2Qc 100) 1) [] 0) BUY 2); simpl; lia.
Defined.



Lemma py_split_length (sep : ascii) (s : string) :
  List.length (py_split sep s) = S (count_char sep s).
Proof.
  induction s as [|c s IH]; [reflexivity|]. simpl.
  destruct (Ascii.eqb c sep); simpl; [now rewrite IH|].
  destruct (py_split sep s); simpl in *; [discriminate | exact IH].
Qed.

(** X9. [get_price_and_amount] raises [ValueError] on every level id
    that does not hold exactly one underscore. *)
Theorem price_of_malformed_level_id (self : MarketMakingControllerBase)
    (level_id : string) :
  count_char "_" level_id <> 1%nat ->
  get_price_and_amount self level_id = Raise ValueError.
Proof.
  intros H. unfold get_price_and_amount.
  pose proof (py_split_length "_" level_id) as Hl.
  destruct (py_split "_" level_id) as [|a [|b [|c l]]]; try reflexivity.
  simpl in Hl. congruence.
Qed.

Lemma price_of_malformed_level_id_witness :
  get_price_and_amount example_controller "buy_1_2" = Raise ValueError.
Proof. apply (price_of_malformed_level_id example_controller "buy_1_2"). discriminate. Defined.

(** ** The passes of a cycle *)

Lemma in_skipn {A} (k : nat) (l : list A) (x : A) :
  In x (skipn k l) <-> exists n, (k <= n)%nat /\ nth_error l n = Some x.
Proof.
  revert l. induction k as [|k IH]; intros l.
  - simpl. split.
    + intros H. apply In_nth_error in H as [n H]. exists n. split; [lia | exact H].
    + intros (n & _ & H). eapply nth_error_In, H.
  - destruct l as [|a l]; simpl.
    + split; [contradiction|]. intros (n & _ & H). now destruct n.
    + rewrite IH. split.
      * intros (n & Hn & H). exists (S n). split; [lia | exact H].
      * intros (n & Hn & H). destruct n as [|n]; [lia|]. exists n. split; [lia | exact H].
Qed.

Lemma dict_getitem_cases (d : list (string * string)) (key : string) :
  (exists v, dict_getitem d key = Ok v) \/ dict_getitem d key = Raise KeyError.
Proof.
  induction d as [|[k v] d IH]; simpl; [now right|].
  destruct (String.eqb k key); [left; now exists v | exact IH].
Qed.

Lemma mapM_all_ok {A B} (f : A -> result B) (l : list A) :
  (forall x, In x l -> exists y, f x = Ok y) ->
  exists ys, mapM f l = Ok ys /\ List.length ys = List.length l.
Proof.
  induction l as [|x l IH]; intros H; simpl.
  - now exists [].
  - destruct (H x (or_introl eq_refl)) as [y Hy]. rewrite Hy. cbn [bind].
    destruct IH as (ys & Hys & Hl); [intros z Hz; apply H; now right|].
    rewrite Hys. cbn [bind]. exists (y :: ys). split; [reflexivity | simpl; now rewrite Hl].
Qed.

Lemma mapM_raises {A B} (f : A -> result B) (l : list A) (e : PyExn) (x : A) :
  (forall z, In z l -> (exists y, f z = Ok y) \/ f z = Raise e) ->
  In x l -> f x = Raise e ->
  mapM f l = Raise e.
Proof.
  induction l as [|a l IH]; intros Hall Hin Hx; [contradiction|]. simpl.
  destruct (Hall a (or_introl eq_refl)) as [[y Hy] | Ha].
  - rewrite Hy. cbn [bind]. destruct Hin as [-> | Hin]; [congruence|].
    rewrite IH; [reflexivity | | exact Hin | exact Hx].
    intros z Hz. apply Hall. now right.
  - now rewrite Ha.
Qed.

Lemma Qc_price_positive (r s m : Qc) : 0 < r -> 0 <= s -> 0 <= m -> r * (1 + s * m) <> 0.
Proof.
  intros Hr Hs Hm. apply not_eq_sym, Qclt_not_eq. revert Hr Hs Hm.
  unfold Qclt, Qcle, Qcmult, Qcplus, Q2Qc. cbn [this]. intros Hr Hs Hm.
  rewrite Qred_correct in Hr, Hs, Hm. rewrite !Qred_correct.
  pose proof (Qmult_le_0_compat _ _ Hs Hm) as Hsm.
  apply Qmult_lt_0_compat; [exact Hr | lra].
Qed.

Section Passes.

Context {EC : Type} {strategy : Strategy EC}.

(** X11. The refresh pass stops an executor id exactly when the snapshot
    holds an executor of that id that is active, is not trading and whose
    age, the time of the cycle less its timestamp, is strictly greater
    than [executor_refresh_time]; a trading executor, an inactive one and
    one whose age equals the refresh time are left alone. *)
Theorem refresh_pass_spec (self : MarketMakingControllerBase) (executor_id : string) :
  In (StopExecutorAction executor_id) (executors_to_refresh (EC := EC) self)
  <-> exists x, In x (executors_info self)
                /\ ExecutorInfo.id x = executor_id
                /\ is_stale self x.
Proof.
  unfold executors_to_refresh, filter_executors, is_stale. rewrite in_map_iff. split.
  - intros (x & [= <-] & Hin). apply filter_In in Hin as [Hin Hf].
    apply andb_true_iff in Hf as [Hf Hage]. apply andb_true_iff in Hf as [Ht Ha].
    apply negb_true_iff in Ht. apply Qc_ltb_lt in Hage.
    exists x. now repeat split.
  - intros (x & Hin & <- & Ht & Ha & Hage). exists x. split; [reflexivity|].
    apply filter_In. split; [exact Hin|].
    rewrite Ht, Ha. apply Qc_ltb_lt in Hage. now rewrite Hage.
Qed.

(** X12. In one cycle an executor that the refresh pass stops keeps its
    level from being created: when the overridable filter only restricts
    the levels, a stale executor is stopped by [stop_actions_proposal] and
    the level id bound to it is not among the levels to execute. *)
Theorem refreshed_level_not_recreated (self : MarketMakingControllerBase)
    (x : ExecutorInfo.t) (level_id : string) (levels : list string) :
  (forall not_active_levels,
      incl (filter_not_active_levels self not_active_levels) not_active_levels) ->
  In x (executors_info self) ->
  is_stale self x ->
  dict_getitem (ExecutorInfo.custom_info x) "level_id" = Ok level_id ->
  levels_to_execute self = Ok levels ->
  In (StopExecutorAction (ExecutorInfo.id x)) (stop_actions_proposal self)
  /\ ~ In level_id levels.
Proof.
  intros Hhook Hin (Ht & Ha & Hage) Hbound Hlevels. split.
  - unfold stop_actions_proposal, executors_to_refresh, filter_executors.
    apply in_or_app. left. apply in_map_iff. exists x. split; [reflexivity|].
    apply filter_In. split; [exact Hin|].
    rewrite Ht, Ha. apply Qc_ltb_lt in Hage. now rewrite Hage.
  - eapply bound_level_not_to_execute; eauto.
Qed.

(** X13. The buffer pass stops an executor id exactly when more than
    [EXECUTORS_BUFFER] executors of the snapshot have terminated and an
    executor of that id stands at position [EXECUTORS_BUFFER] or later in
    the snapshot; it then returns as many actions as the snapshot has
    executors beyond the first [EXECUTORS_BUFFER], and none otherwise. *)
Theorem buffer_pass_spec (self : MarketMakingControllerBase) (executor_id : string) :
  let terminated :=
    List.filter
      (fun x => SmartComponentStatus_eqb (ExecutorInfo.status x) TERMINATED)
      (executors_info self) in
  (In (StopExecutorAction executor_id) (store_actions_proposal (EC := EC) self)
   <-> (EXECUTORS_BUFFER < List.length terminated)%nat
       /\ exists n x, (EXECUTORS_BUFFER <= n)%nat
                      /\ nth_error (executors_info self) n = Some x
                      /\ ExecutorInfo.id x = executor_id)
  /\ List.length (store_actions_proposal (EC := EC) self)
     = (if Nat.ltb EXECUTORS_BUFFER (List.length terminated)
        then List.length (executors_info self) - EXECUTORS_BUFFER else 0)%nat.
Proof.
  intros terminated. unfold store_actions_proposal, filter_executors, py_slice_from.
  fold terminated. rewrite sorted_reverse_length.
  destruct (Nat.ltb_spec EXECUTORS_BUFFER (List.length terminated)) as [Hgt|Hle]; split.
  - rewrite in_map_iff. split.
    + intros (x & [= <-] & Hin). split; [exact Hgt|].
      apply in_skipn in Hin as (n & Hn & Hx). now exists n, x.
    + intros (_ & n & x & Hn & Hx & <-). exists x. split; [reflexivity|].
      apply in_skipn. now exists n.
  - now rewrite length_map, length_skipn.
  - split; [contradiction|]. intros [Hgt _]. lia.
  - reflexivity.
Qed.

(** X14. When an active executor of the snapshot has no ["level_id"] in
    its [custom_info], the create pass, and with it
    [determine_executor_actions], raises [KeyError]. *)
Theorem missing_level_id_raises (self : MarketMakingControllerBase) (x : ExecutorInfo.t) :
  In x (executors_info self) ->
  ExecutorInfo.is_active x = true ->
  dict_getitem (ExecutorInfo.custom_info x) "level_id" = Raise KeyError ->
  create_actions_proposal self = Raise KeyError
  /\ determine_executor_actions self = Raise KeyError.
Proof.
  intros Hin Hact Hkey.
  assert (H : levels_to_execute self = Raise KeyError).
  { unfold levels_to_execute.
    rewrite (mapM_raises _ _ KeyError x); [reflexivity | | | exact Hkey].
    - intros z _. apply dict_getitem_cases.
    - now apply active_executor_is_collected. }
  unfold determine_executor_actions, create_actions_proposal. now rewrite H.
Qed.

(** X15. With the overridable filter of the base class, a
    [get_executor_config] that returns on every level, a ["level_id"] in
    the [custom_info] of every active executor, as many fractions as
    spreads on each side, a positive reference price and spreads and a
    multiplier that are not negative, [determine_executor_actions]
    returns: one create action for each level to execute, followed by the
    stop actions of the three other passes. *)
Theorem cycle_returns (self : MarketMakingControllerBase) :
  (forall levels, filter_not_active_levels self levels = levels) ->
  (forall level_id price amount,
      exists executor_config,
        get_executor_config self level_id price amount = Ok executor_config) ->
  (forall x, In x (executors_info self) -> ExecutorInfo.is_active x = true ->
             exists level_id,
               dict_getitem (ExecutorInfo.custom_info x) "level_id" = Ok level_id) ->
  (forall side, List.length (side_amounts_pct side (config self))
                = List.length (side_spreads side (config self))) ->
  0 < reference_price (processed_data self) ->
  0 <= spread_multiplier (processed_data self) ->
  (forall side spread, In spread (side_spreads side (config self)) -> 0 <= spread) ->
  exists levels created,
    levels_to_execute self = Ok levels
    /\ List.length created = List.length levels
    /\ forallb is_create created = true
    /\ determine_executor_actions self
       = Ok (created ++ executors_to_refresh self ++ executors_to_early_stop self
               ++ store_actions_proposal self)%list.
Proof.
  intros Hfilter Hconfig Hkeys Hlen Hr Hm Hs.
  assert (Hl : exists levels, levels_to_execute self = Ok levels
                 /\ forall level_id, In level_id levels ->
                      exists side level,
                        (level < List.length (side_spreads side (config self)))%nat
                        /\ level_id = get_level_id_from_side side (Z.of_nat level)).
  { unfold levels_to_execute.
    destruct (mapM_all_ok
                (fun executor => dict_getitem (ExecutorInfo.custom_info executor) "level_id")
                (filter_executors (executors_info self)
                   (fun executor => TradeType_eqb (ExecutorInfo.trade_type executor) BUY
                                    && ExecutorInfo.is_active executor)
                 ++ filter_executors (executors_info self)
                      (fun executor => TradeType_eqb (ExecutorInfo.trade_type executor) SELL
                                       && ExecutorInfo.is_active executor))%list)
      as (ids & Hids & _).
    { intros x Hx. unfold filter_executors in Hx.
      apply in_app_or in Hx as [Hx|Hx]; apply filter_In in Hx as [Hx Hb];
        apply andb_true_iff in Hb as [_ Hb]; now apply Hkeys. }
    rewrite Hids. cbn [bind]. rewrite Hfilter. eexists. split; [reflexivity|].
    intros level_id Hin. rewrite get_not_active_levels_ids_eq in Hin.
    apply in_app_or in Hin as [Hin|Hin]; apply filter_In in Hin as [Hin _];
      apply in_side_level_ids in Hin as (level & Hlt & ->); eauto. }
  destruct Hl as (levels & Hlevels & Hgen).
  destruct (mapM_all_ok (create_action self) levels) as (created & Hc & Hcl).
  { intros level_id Hin. apply Hgen in Hin as (side & level & Hlt & ->).
    unfold create_action. rewrite get_price_and_amount_generated.
    destruct (nth_error (side_spreads side (config self)) level) as [spread|] eqn:Es;
      [|apply nth_error_None in Es; lia].
    destruct (nth_error (side_amounts_pct side (config self)) level) as [fraction|] eqn:Ef;
      [|apply nth_error_None in Ef; rewrite Hlen in Ef; lia].
    rewrite (py_getitem_nat _ _ _ Es). cbn [bind].
    rewrite (py_getitem_nat _ _ _ Ef). cbn [bind].
    unfold py_truediv. rewrite Qc_one_mult.
    destruct (Qc_eq_dec _ 0) as [Hz|_].
    - exfalso. revert Hz. apply Qc_price_positive; [exact Hr | | exact Hm].
      apply (Hs side). eapply nth_error_In, Es.
    - cbn [bind].
      destruct (Hconfig (get_level_id_from_side side (Z.of_nat level))
                  (reference_price (processed_data self)
                   * (1 + spread * spread_multiplier (processed_data self)))
                  (fraction * total_amount_quote (config self)
                   / (reference_price (processed_data self)
                      * (1 + spread * spread_multiplier (processed_data self)))))
        as [ec Hec].
      rewrite Hec. cbn [bind]. eauto. }
  exists levels, created. split; [exact Hlevels|]. split; [exact Hcl|].
  assert (Hcreate : create_actions_proposal self = Ok created).
  { unfold create_actions_proposal. now rewrite Hlevels. }
  split; [now apply (created_are_creates self)|].
  unfold determine_executor_actions, stop_actions_proposal. rewrite Hcreate. cbn [bind].
  now rewrite <- !app_assoc.
Qed.

End Passes.

(** X16. In the base class, whose [get_executor_config] is not
    implemented, [determine_executor_actions] returns only when there is
    no level to execute, and then the stop actions of the refresh and of
    the buffer pass; with a level to execute it raises what pricing the
    first such level raises, and [NotImplementedError] when that level is
    priced. *)
Theorem base_class_cycle (EC : Type) (self : MarketMakingControllerBase) :
  determine_executor_actions (strategy := base_strategy EC) self
  = match levels_to_execute (strategy := base_strategy EC) self with
    | Raise e => Raise e
    | Ok [] => Ok (executors_to_refresh self ++ store_actions_proposal self)%list
    | Ok (level_id :: _) =>
        match get_price_and_amount self level_id with
        | Ok _ => Raise NotImplementedError
        | Raise e => Raise e
        end
    end.
Proof.
  unfold determine_executor_actions, create_actions_proposal, stop_actions_proposal.
  destruct (levels_to_execute self) as [[|level_id levels]|e]; cbn [bind mapM].
  - cbn. now rewrite app_nil_r.
  - unfold create_action.
    destruct (get_price_and_amount self level_id) as [[price amount]|e]; reflexivity.
  - reflexivity.
Qed.

Lemma refreshed_level_not_recreated_witness :
  let x := ExecutorInfo.mk "executor-1" BUY ACTIVE true false 0 0 [("level_id", "buy_0")] in
  let self := mkController example_config (mkProcessed (Z2Qc 100) 1) [x] (Z2Qc 301) in
  In (StopExecutorAction "executor-1")
    (stop_actions_proposal (strategy := recording_strategy) self)
  /\ ~ In "buy_0" ["buy_1"; "sell_0"; "sell_1"].
Proof.
  intros x self.
  apply (refreshed_level_not_recreated (strategy := recording_strategy) self x "buy_0"
           ["buy_1"; "sell_0"; "sell_1"]).
  - intros levels. apply incl_refl.
  - left. reflexivity.
  - repeat split.
  - reflexivity.
  - reflexivity.
Defined.

Lemma missing_level_id_raises_witness :
  let x := ExecutorInfo.mk "executor-1" SELL ACTIVE true false 0 0 [] in
  let self := mkController example_config (mkProcessed (Z2Qc 100) 1) [x] 0 in
  create_actions_proposal (strategy := recording_strategy) self = Raise KeyError
  /\ determine_executor_actions (strategy := recording_strategy) self = Raise KeyError.
Proof.
  intros x self.
  apply (missing_level_id_raises (strategy := recording_strategy) self x);
    [left; reflexivity | reflexivity | reflexivity].
Defined.

Lemma cycle_returns_witness :
  exists levels created,
    levels_to_execute (strategy := recording_strategy) example_controller = Ok levels
    /\ List.length created = List.length levels
    /\ forallb is_create created = true
    /\ determine_executor_actions (strategy := recording_strategy) example_controller
       = Ok (created ++ executors_to_refresh example_controller
               ++ @executors_to_early_stop _ recording_strategy example_controller
               ++ store_actions_proposal example_controller)%list.
Proof.
  apply (cycle_returns (strategy := recording_strategy) example_controller).
  - reflexivity.
  - intros level_id price amount. eexists. reflexivity.
  - intros x [].
  - intros []; reflexivity.
  - reflexivity.
  - discriminate.
  - intros [] spread [<-|[<-|[]]]; discriminate.
Defined.

(** ** Updating and normalizing the configuration *)

Lemma parse_unsigned_cases (s : string) :
  (exists n, parse_unsigned s = Ok n) \/ parse_unsigned s = Raise ValueError.
Proof.
  unfold parse_unsigned. destruct (int_digits false s); [|now right].
  destruct (NilEmpty.uint_of_string _); [left; eauto | now right].
Qed.

Lemma py_int_cases (s : string) :
  (exists n, py_int s = Ok n) \/ py_int s = Raise ValueError.
Proof.
  assert (Hneg : forall b, (exists n, (n <- parse_unsigned b ;; Ok (- n)%Z) = Ok n)
                           \/ (n <- parse_unsigned b ;; Ok (- n)%Z) = Raise ValueError).
  { intros b. destruct (parse_unsigned_cases b) as [[n ->] | ->]; cbn [bind]; eauto. }
  unfold py_int. destruct (py_strip s) as [|c b]; [apply parse_unsigned_cases|].
  destruct c as [[|] [|] [|] [|] [|] [|] [|] [|]];
    first [apply Hneg | apply parse_unsigned_cases].
Qed.

Lemma mapM_cases {A B} (f : A -> result B) (l : list A) (e : PyExn) :
  (forall x, (exists y, f x = Ok y) \/ f x = Raise e) ->
  (exists ys, mapM f l = Ok ys) \/ mapM f l = Raise e.
Proof.
  intros H. induction l as [|x l IH]; simpl; [left; eauto|].
  destruct (H x) as [[y ->] | ->]; cbn [bind]; [|now right].
  destruct IH as [[ys ->] | ->]; cbn [bind]; [left; eauto | now right].
Qed.

Section Updates.

Context {float_parser : FloatParser}.

(** X17. A call of [update_parameters] that is given new amounts never
    returns: once the new spreads are parsed it assigns them and raises,
    [AttributeError] when the amounts are a list or a string of integers
    (the validator is handed the name of the field where it reads
    [field.name]), [ValueError] when they are a string that is not one. *)
Theorem update_with_amounts_raises (trade_type : TradeType) (new_spreads : RawSpreads)
    (raw : RawAmounts) (cfg : MarketMakingControllerConfigBase) (spreads : list Qc) :
  parse_spreads new_spreads = Ok spreads ->
  exists e,
    update_parameters trade_type new_spreads (Some raw) cfg
    = (set_side_spreads trade_type spreads cfg, Raise e)
    /\ (e = AttributeError \/ e = ValueError)
    /\ (forall l, raw = AmountsList l -> e = AttributeError)
    /\ (forall s l, raw = AmountsStr s ->
                    mapM (fun x => py_int (py_strip x)) (py_split "," s) = Ok l ->
                    e = AttributeError)
    /\ (forall s, raw = AmountsStr s ->
                  mapM (fun x => py_int (py_strip x)) (py_split "," s) = Raise ValueError ->
                  e = ValueError).
Proof.
  intros Hs. rewrite update_parameters_eq, Hs. cbv zeta.
  unfold parse_and_validate_amounts. destruct raw as [l|s]; cbn [bind field_name].
  - exists AttributeError. repeat split; auto; discriminate.
  - destruct (mapM_cases (fun x => py_int (py_strip x)) (py_split "," s) ValueError)
      as [[l Hl] | Hl]; [intros x; apply py_int_cases | |]; rewrite Hl; cbn [bind field_name].
    + exists AttributeError. repeat split; auto; try discriminate.
      intros s' [= <-] H. congruence.
    + exists ValueError. repeat split; auto; [discriminate|].
      intros s' l' [= <-] H. congruence.
Qed.

(** X18. Once the new spreads are parsed, a call of [update_parameters]
    without new amounts returns exactly when the fractions of the other
    side, if there are any, do not sum to zero: it then leaves the new
    spreads and as many fractions, all equal, on the updated side; when
    they sum to zero it raises [ZeroDivisionError] with the new spreads
    assigned. *)
Theorem update_without_amounts_returns (trade_type : TradeType) (new_spreads : RawSpreads)
    (cfg : MarketMakingControllerConfigBase) (spreads : list Qc) :
  parse_spreads new_spreads = Ok spreads ->
  (zero_sum (side_amounts_pct (other_side trade_type) cfg) = false ->
   exists cfg',
     update_parameters trade_type new_spreads None cfg = (cfg', Ok tt)
     /\ side_spreads trade_type cfg' = spreads
     /\ side_amounts_pct trade_type cfg' = equal_fractions (List.length spreads)
     /\ List.length (side_amounts_pct trade_type cfg')
        = List.length (side_spreads trade_type cfg'))
  /\ (zero_sum (side_amounts_pct (other_side trade_type) cfg) = true ->
      exists cfg',
        update_parameters trade_type new_spreads None cfg = (cfg', Raise ZeroDivisionError)
        /\ side_spreads trade_type cfg' = spreads).
Proof.
  intros Hs. rewrite update_parameters_eq, Hs. cbv zeta. rewrite renormalize_eq.
  split; intros Hz;
    destruct trade_type;
    cbn [side_amounts_pct other_side set_side_amounts_pct set_side_spreads
         buy_amounts_pct sell_amounts_pct buy_spreads sell_spreads] in *;
    rewrite ?zero_sum_ones, Hz, ?zero_sum_ones; eexists; (split; [reflexivity|]);
    cbn [side_spreads side_amounts_pct set_side_amounts_pct set_side_spreads
         buy_amounts_pct sell_amounts_pct buy_spreads sell_spreads];
    rewrite ?normalized_ones; repeat split; unfold equal_fractions; apply repeat_length.
Qed.

End Updates.

Lemma update_with_amounts_raises_witness :
  exists e,
    update_parameters (float_parser := decimal_float) SELL (SpreadsStr "0.03, 0.04")
      (Some (AmountsList [1; 1]%Z)) example_config
    = (set_side_spreads SELL [ratio 3 100; ratio 4 100] example_config, Raise e)
    /\ (e = AttributeError \/ e = ValueError)
    /\ (forall l, AmountsList [1; 1]%Z = AmountsList l -> e = AttributeError)
    /\ (forall s l, AmountsList [1; 1]%Z = AmountsStr s ->
                    mapM (fun x => py_int (py_strip x)) (py_split "," s) = Ok l ->
                    e = AttributeError)
    /\ (forall s, AmountsList [1; 1]%Z = AmountsStr s ->
                  mapM (fun x => py_int (py_strip x)) (py_split "," s) = Raise ValueError ->
                  e = ValueError).
Proof.
  apply (update_with_amounts_raises (float_parser := decimal_float) SELL
           (SpreadsStr "0.03, 0.04") (AmountsList [1; 1]%Z) example_config).
  qc_compute.
Defined.

Lemma update_without_amounts_returns_witness :
  (zero_sum (side_amounts_pct SELL example_config) = false ->
   exists cfg',
     update_parameters (float_parser := decimal_float) BUY (SpreadsStr "0.03, 0.04, 0.05")
       None example_config = (cfg', Ok tt)
     /\ side_spreads BUY cfg' = [ratio 3 100; ratio 4 100; ratio 5 100]
     /\ side_amounts_pct BUY cfg' = equal_fractions 3
     /\ List.length (side_amounts_pct BUY cfg') = List.length (side_spreads BUY cfg'))
  /\ (zero_sum (side_amounts_pct SELL example_config) = true ->
      exists cfg',
        update_parameters (float_parser := decimal_float) BUY
          (SpreadsStr "0.03, 0.04, 0.05") None example_config
        = (cfg', Raise ZeroDivisionError)
        /\ side_spreads BUY cfg' = [ratio 3 100; ratio 4 100; ratio 5 100]).
Proof.
  apply (update_without_amounts_returns (float_parser := decimal_float) BUY
           (SpreadsStr "0.03, 0.04, 0.05") example_config
           [ratio 3 100; ratio 4 100; ratio 5 100]).
  qc_compute.
Defined.

(** ** The field validators *)

Lemma mapM_ok_iff {A B} (f : A -> result B) (l : list A) :
  (exists ys, mapM f l = Ok ys) <-> Forall (fun x => exists y, f x = Ok y) l.
Proof.
  split.
  - intros [ys H]. apply mapM_ok_Forall2 in H.
    induction H; constructor; eauto.
  - intros H. destruct (mapM_all_ok f l) as (ys & Hys & _); [|eauto].
    apply Forall_forall. exact H.
Qed.

Section Validators.

Context {float_parser : FloatParser}.

(** X22. [parse_spreads] returns a list as it is. On a string it returns
    exactly when [float] accepts every comma-separated piece, trimmed, and
    then one spread for each piece in order, one more than the string has
    commas. *)
Theorem parse_spreads_spec (s : string) :
  (forall l, parse_spreads (SpreadsList l) = Ok l)
  /\ ((exists l, parse_spreads (SpreadsStr s) = Ok l)
      <-> Forall (fun piece => exists x, py_float (py_strip piece) = Ok x) (py_split "," s))
  /\ (forall l, parse_spreads (SpreadsStr s) = Ok l ->
        List.length l = S (count_char "," s)
        /\ Forall2 (fun piece x => py_float (py_strip piece) = Ok x) (py_split "," s) l).
Proof.
  split; [reflexivity|]. split.
  - apply (mapM_ok_iff (fun piece => py_float (py_strip piece))).
  - intros l H. unfold parse_spreads in H. apply mapM_ok_Forall2 in H. split; [|exact H].
    rewrite <- (Forall2_length H). apply py_split_length.
Qed.

(** X23. Run by the validation of the model on the amounts field of a
    side whose spreads are validated, [parse_and_validate_amounts] returns
    one weight for each spread whenever it returns: the weight 1 each when
    the amounts are left out, the integers given when they are a list of
    as many integers; a list of another length raises [ValueError]. *)
Theorem amounts_validator_spec (side : TradeType) (v : option RawAmounts)
    (values : Values) (spreads : list Qc) :
  let prefix := py_lower (TradeType_name side) in
  values_getitem values (prefix ++ "_spreads") = Ok spreads ->
  (forall ba, parse_and_validate_amounts v values (ModelField (prefix ++ "_amounts_pct"))
              = Ok ba -> List.length ba = List.length spreads)
  /\ (v = None ->
      parse_and_validate_amounts v values (ModelField (prefix ++ "_amounts_pct"))
      = Ok (map (fun _ => 1) spreads))
  /\ (forall l, v = Some (AmountsList l) ->
        parse_and_validate_amounts v values (ModelField (prefix ++ "_amounts_pct"))
        = if Nat.eqb (List.length l) (List.length spreads)
          then Ok (map Z2Qc l) else Raise ValueError).
Proof.
  intros prefix Hs.
  assert (Hkey : values_getitem values
                   (py_replace (prefix ++ "_amounts_pct") "amounts_pct" "spreads")
                 = Ok spreads) by (destruct side; exact Hs).
  split; [|split].
  - intros ba H. now apply (amounts_validated v values _ spreads) in H as [Hl _].
  - intros ->. unfold parse_and_validate_amounts. cbn [bind field_name].
    now rewrite Hkey.
  - intros l ->. unfold parse_and_validate_amounts. cbn [bind field_name].
    rewrite Hkey. cbn [bind]. now destruct (Nat.eqb _ _).
Qed.

End Validators.

Lemma amounts_validator_spec_witness :
  let values := mkValues (Some [ratio 1 100; ratio 2 100]) None None None in
  let field := ModelField (py_lower (TradeType_name BUY) ++ "_amounts_pct") in
  (forall ba,
      parse_and_validate_amounts (Some (AmountsList [3; 1]%Z)) values field = Ok ba ->
      List.length ba = List.length [ratio 1 100; ratio 2 100])
  /\ (Some (AmountsList [3; 1]%Z) = None ->
      parse_and_validate_amounts (Some (AmountsList [3; 1]%Z)) values field
      = Ok (map (fun _ => 1) [ratio 1 100; ratio 2 100]))
  /\ (forall l, Some (AmountsList [3; 1]%Z) = Some (AmountsList l) ->
        parse_and_validate_amounts (Some (AmountsList [3; 1]%Z)) values field
        = if Nat.eqb (List.length l) (List.length [ratio 1 100; ratio 2 100])
          then Ok (map Z2Qc l) else Raise ValueError).
Proof.
  intros values field.
  apply (amounts_validator_spec BUY (Some (AmountsList [3; 1]%Z)) values
           [ratio 1 100; ratio 2 100]).
  reflexivity.
Defined.

(** ** The position mode *)

Lemma upper_lower_char (c : ascii) : upper_char (lower_char c) = upper_char c.
Proof. destruct c as [[|] [|] [|] [|] [|] [|] [|] [|]]; reflexivity. Qed.

Lemma py_upper_lower (s : string) : py_upper (py_lower s) = py_upper s.
Proof.
  induction s as [|c s IH]; [reflexivity|].
  cbn [py_upper py_lower string_map] in *. now rewrite upper_lower_char, IH.
Qed.

(** X24. [validate_position_mode] does not look at the case of the
    letters: it returns a mode exactly when the string, in upper case, is
    the name of that mode, raises [ValueError] on every other string, and
    treats a string and its lower-case form alike. *)
Theorem validate_position_mode_spec (v : string) :
  (forall m, validate_position_mode v = Ok m <-> py_upper v = PositionMode_name m)
  /\ ((forall m, py_upper v <> PositionMode_name m) ->
      validate_position_mode v = Raise ValueError)
  /\ validate_position_mode (py_lower v) = validate_position_mode v.
Proof.
  assert (H : validate_position_mode v
              = if String.eqb "HEDGE" (py_upper v) then Ok HEDGE
                else if String.eqb "ONEWAY" (py_upper v) then Ok ONEWAY
                else Raise ValueError).
  { unfold validate_position_mode. cbn [existsb PositionMode_members members_getitem fst].
    destruct (String.eqb "HEDGE" (py_upper v)); [reflexivity|].
    now destruct (String.eqb "ONEWAY" (py_upper v)). }
  split; [|split].
  - intros m. rewrite H.
    destruct (String.eqb_spec "HEDGE" (py_upper v)) as [E1|N1];
      [|destruct (String.eqb_spec "ONEWAY" (py_upper v)) as [E2|N2]].
    + rewrite <- E1. destruct m; split; intros E; try reflexivity; discriminate E.
    + rewrite <- E2. destruct m; split; intros E; try reflexivity; discriminate E.
    + split; [discriminate|]. intros E. destruct m; symmetry in E; contradiction.
  - intros Hn. rewrite H.
    destruct (String.eqb_spec "HEDGE" (py_upper v)) as [E1|N1];
      [now destruct (Hn HEDGE)|].
    destruct (String.eqb_spec "ONEWAY" (py_upper v)) as [E2|N2];
      [now destruct (Hn ONEWAY) | reflexivity].
  - unfold validate_position_mode. now rewrite py_upper_lower.
Qed.

(** ** Order and number of the create actions *)

Lemma filter_map_swap {A B} (f : A -> B) (p : B -> bool) (l : list A) :
  List.filter p (map f l) = map f (List.filter (fun x => p (f x)) l).
Proof.
  induction l as [|x l IH]; simpl; [reflexivity|].
  destruct (p (f x)); simpl; now rewrite IH.
Qed.

Lemma seq_strongly_sorted (len start : nat) : StronglySorted lt (seq start len).
Proof.
  revert start. induction len as [|len IH]; intros start; simpl; constructor.
  - apply IH.
  - apply Forall_forall. intros n Hn. apply in_seq in Hn. lia.
Qed.

Lemma filter_strongly_sorted {A} (R : A -> A -> Prop) (p : A -> bool) (l : list A) :
  StronglySorted R l -> StronglySorted R (List.filter p l).
Proof.
  induction 1 as [|x l Hs IH Hx]; simpl; [constructor|].
  destruct (p x); [|exact IH]. constructor; [exact IH|].
  apply Forall_forall. intros y Hy. apply filter_In in Hy as [Hy _].
  revert y Hy. now apply Forall_forall.
Qed.

(** X25. The ids that [get_not_active_levels_ids] returns come in the
    order of the ladder: the missing buy levels by increasing level, then
    the missing sell levels by increasing level; with no active id they
    are all the levels of the two sides. *)
Theorem not_active_levels_ids_order (self : MarketMakingControllerBase)
    (active_levels_ids : list string) :
  exists buy_levels sell_levels : list nat,
    get_not_active_levels_ids self active_levels_ids
    = (map (fun level => get_level_id_from_side BUY (Z.of_nat level)) buy_levels
       ++ map (fun level => get_level_id_from_side SELL (Z.of_nat level)) sell_levels)%list
    /\ StronglySorted lt buy_levels /\ StronglySorted lt sell_levels
    /\ (active_levels_ids = [] ->
        buy_levels = seq 0 (List.length (buy_spreads (config self)))
        /\ sell_levels = seq 0 (List.length (sell_spreads (config self)))).
Proof.
  rewrite get_not_active_levels_ids_eq. unfold side_level_ids.
  rewrite !filter_map_swap. do 2 eexists. split; [reflexivity|].
  split; [apply filter_strongly_sorted, seq_strongly_sorted|].
  split; [apply filter_strongly_sorted, seq_strongly_sorted|].
  intros ->. cbn [py_in existsb negb side_spreads].
  split; apply forallb_filter_id, forallb_forall; reflexivity.
Qed.

Section CreateCount.

Context {EC : Type} {strategy : Strategy EC}.

(** X26. With the overridable filter of the base class the create pass
    makes at most one action for a level in a cycle: the create list,
    when there is one, holds one action for each level to execute, no
    level is there twice, and there are no more actions than the two
    ladders have levels. *)
Theorem one_create_per_level (self : MarketMakingControllerBase)
    (created : list (ExecutorAction EC)) :
  (forall levels, filter_not_active_levels self levels = levels) ->
  create_actions_proposal self = Ok created ->
  exists levels,
    levels_to_execute self = Ok levels
    /\ NoDup levels
    /\ Forall2 (fun level a => create_action self level = Ok a) levels created
    /\ (List.length created
        <= List.length (buy_spreads (config self))
           + List.length (sell_spreads (config self)))%nat.
Proof.
  intros Hfilter. unfold create_actions_proposal.
  destruct (levels_to_execute self) as [levels|] eqn:El; [|discriminate].
  cbn [bind]. intros Hc. apply mapM_ok_Forall2 in Hc.
  exists levels. split; [reflexivity|].
  unfold levels_to_execute in El.
  destruct (mapM _ _) as [ids|]; [|discriminate]. cbn [bind] in El.
  rewrite Hfilter in El. injection El as <-.
  split; [|split; [exact Hc|]].
  - rewrite get_not_active_levels_ids_eq. apply NoDup_app.
    + apply NoDup_filter, side_level_ids_NoDup.
    + apply NoDup_filter, side_level_ids_NoDup.
    + intros a Hb Hs. apply filter_In in Hb as [Hb _]. apply filter_In in Hs as [Hs _].
      apply in_side_level_ids in Hb as (l1 & _ & ->).
      apply in_side_level_ids in Hs as (l2 & _ & Hs).
      apply get_level_id_from_side_inj in Hs as [Hs _]. discriminate Hs.
  - rewrite <- (Forall2_length Hc), get_not_active_levels_ids_eq, length_app.
    apply Nat.add_le_mono;
      (etransitivity; [apply filter_length_le|]);
      unfold side_level_ids; now rewrite length_map, length_seq.
Qed.

End CreateCount.

Lemma one_create_per_level_witness :
  exists levels,
    levels_to_execute (strategy := recording_strategy) example_controller = Ok levels
    /\ NoDup levels
    /\ Forall2 (fun level a =>
                  create_action (strategy := recording_strategy) example_controller level
                  = Ok a)
         levels
         [CreateExecutorAction "controller" ("buy_0", Z2Qc 101, ratio 50 101);
          CreateExecutorAction "controller" ("buy_1", Z2Qc 102, ratio 50 102);
          CreateExecutorAction "controller" ("sell_0", Z2Qc 101, ratio 50 101);
          CreateExecutorAction "controller" ("sell_1", Z2Qc 102, ratio 50 102)]
    /\ (4 <= List.length (buy_spreads (config example_controller))
             + List.length (sell_spreads (config example_controller)))%nat.
Proof.
  apply (one_create_per_level (strategy := recording_strategy) example_controller).
  - reflexivity.
  - qc_compute.
Defined.

(** ** The level of an id *)

Lemma count_char_zero (c : ascii) (s : string) :
  count_char c s = O -> no_char c s = true.
Proof.
  induction s as [|a s IH]; [reflexivity|]. simpl. unfold no_char in *. simpl.
  destruct (Ascii.eqb a c); [discriminate | exact IH].
Qed.

(** X27. [get_level_from_level_id] raises [IndexError] on an id without
    an underscore; on an id with underscores it reads the piece after the
    first underscore, up to the second, as an integer, and raises
    [ValueError] when that piece is not one. *)
Theorem level_of_level_id (level_id : string) :
  (count_char "_" level_id = O -> get_level_from_level_id level_id = Raise IndexError)
  /\ (forall side piece rest,
        py_split "_" level_id = side :: piece :: rest ->
        get_level_from_level_id level_id = py_int piece
        /\ (get_level_from_level_id level_id = Raise ValueError
            \/ exists n, get_level_from_level_id level_id = Ok n)).
Proof.
  split.
  - intros H. unfold get_level_from_level_id.
    now rewrite (py_split_no_sep _ _ (count_char_zero _ _ H)).
  - intros side piece rest H. unfold get_level_from_level_id. rewrite H.
    assert (E : py_getitem (side :: piece :: rest) 1%Z = Ok piece).
    { apply (py_getitem_nat (side :: piece :: rest) 1 piece). reflexivity. }
    rewrite E. cbn [bind]. split; [reflexivity|].
    destruct (py_int_cases piece) as [[n Hn] | Hn]; rewrite Hn; eauto.
Qed.

(** ** Construction from lists *)

Section Construction.

Context {float_parser : FloatParser}.

(** X28. The constructor returns on any two lists of spreads when the
    amounts of both sides are left out; each side of the configuration
    has the spreads given and as many fractions, all equal. *)
Theorem build_from_lists (raw : RawConfig) (bs ss : list Qc) :
  raw_buy_spreads raw = SpreadsList bs ->
  raw_sell_spreads raw = SpreadsList ss ->
  raw_buy_amounts_pct raw = None ->
  raw_sell_amounts_pct raw = None ->
  build_config raw
  = Ok (built raw bs (equal_fractions (List.length bs))
          ss (equal_fractions (List.length ss))).
Proof.
  intros Hb Hs Hba Hsa.
  rewrite (build_config_validated raw bs (map (fun _ => 1) bs) ss (map (fun _ => 1) ss)).
  - rewrite !zero_sum_ones. cbn [orb]. now rewrite !normalized_ones.
  - unfold validated. rewrite Hb, Hs, Hba, Hsa. repeat split.
Qed.

End Construction.

Lemma build_from_lists_witness :
  build_config (float_parser := decimal_float) no_buy_level_raw
  = Ok (built no_buy_level_raw [] (equal_fractions 0)
          [ratio 1 100; ratio 2 100] (equal_fractions 2)).
Proof.
  apply (build_from_lists (float_parser := decimal_float) no_buy_level_raw
           [] [ratio 1 100; ratio 2 100]); reflexivity.
Defined.

(** ** The default market data *)

(** X29. [update_market_data] leaves the configuration and the snapshot
    as they are and sets the multiplier to 1: when the provider gives a
    mid price, every level that has a spread and a fraction is then
    priced at the mid price scaled by one plus its spread, unless that
    price is zero; when the provider raises, so does the update. *)
Theorem default_market_data (market_data_provider : MarketDataProvider)
    (self : MarketMakingControllerBase) :
  match market_data_provider (connector_name (config self)) (trading_pair (config self)) with
  | Raise e => update_market_data market_data_provider self = Raise e
  | Ok mid =>
      exists self',
        update_market_data market_data_provider self = Ok self'
        /\ config self' = config self
        /\ executors_info self' = executors_info self
        /\ forall side level spread fraction,
             nth_error (side_spreads side (config self)) level = Some spread ->
             nth_error (side_amounts_pct side (config self)) level = Some fraction ->
             mid * (1 + spread) <> 0 ->
             get_price_and_amount self' (get_level_id_from_side side (Z.of_nat level))
             = Ok (mid * (1 + spread),
                   fraction * total_amount_quote (config self) / (mid * (1 + spread)))
  end.
Proof.
  unfold update_market_data.
  destruct (market_data_provider _ _) as [mid|e]; [|reflexivity].
  cbn [bind]. eexists. split; [reflexivity|]. split; [reflexivity|].
  split; [reflexivity|].
  intros side level spread fraction Hs Hf Hp.
  rewrite get_price_and_amount_generated.
  cbn [config processed_data reference_price spread_multiplier].
  rewrite (py_getitem_nat _ _ _ Hs). cbn [bind]. rewrite (py_getitem_nat _ _ _ Hf).
  cbn [bind].
  replace (1 + 1 * (spread * 1)) with (1 + spread) by ring.
  unfold py_truediv. now destruct (Qc_eq_dec _ 0).
Qed.
